(** * neckbeard: the [up] and [repair] actions

    A shallow embedding of [neckbeard/actions/up.py] and
    [neckbeard/actions/repair.py].  The actions talk to the cloud through
    the [Deployment], [NodeDeployer] and [Node] collaborators, prompt the
    operator and may end the process; they are written here in a state and
    error monad over an abstract cloud, with a trace of every interaction. *)

From Stdlib Require Import List String Ascii ZArith Bool Arith Lia Permutation.
From Stdlib Require Import DecimalString.
Import ListNotations.
Local Open Scope string_scope.
Local Open Scope list_scope.

(** ** Python values and exceptions *)

Inductive Exn : Type :=
| AssertionError
| KeyError (key : string)
| TypeError (msg : string)
| ValueError (msg : string)
| AttributeError (msg : string)
| UnboundLocalError (name : string)
| ExternalError (msg : string).

(** [fmt % args] for the conversions the actions use ([%s] and [%%]).
    [args] is the argument tuple; a single argument that is neither a tuple
    nor a mapping counts as a tuple of one.  Arguments are given by their
    [str]. *)
Fixpoint py_format (fmt : string) (args : list string) : Exn + string :=
  match fmt with
  | EmptyString =>
      match args with
      | [] => inr ""
      | _ :: _ =>
          inl (TypeError "not all arguments converted during string formatting")
      end
  | String c rest =>
      if Ascii.eqb c "%" then
        match rest with
        | EmptyString => inl (ValueError "incomplete format")
        | String k rest' =>
            if Ascii.eqb k "s" then
              match args with
              | a :: args' =>
                  match py_format rest' args' with
                  | inr s => inr (a ++ s)%string
                  | inl e => inl e
                  end
              | [] => inl (TypeError "not enough arguments for format string")
              end
            else if Ascii.eqb k "%" then
              match py_format rest' args with
              | inr s => inr (String "%" s)
              | inl e => inl e
              end
            else inl (ValueError "unsupported format character")
        end
      else
        match py_format rest args with
        | inr s => inr (String c s)
        | inl e => inl e
        end
  end.

(** [str(x)] of a value that may be [None]. *)
Definition py_str {A : Type} (str : A -> string) (x : option A) : string :=
  match x with
  | Some a => str a
  | None => "None"
  end.

(** [sep.join(xs)]. *)
Fixpoint join (sep : string) (xs : list string) : string :=
  match xs with
  | [] => ""
  | [x] => x
  | x :: rest => (x ++ sep ++ join sep rest)%string
  end.

(** [x in opts] for a list of strings. *)
Definition py_in (x : string) (opts : list string) : bool :=
  existsb (String.eqb x) opts.

(** ** Configuration *)

(** Modelled from the spec: the constant [ACTIVE] of
    [neckbeard.actions.utils], which is not part of the sources at hand; the
    glossary names the three generations. *)
Inductive Generation : Type := ACTIVE | PENDING | OLD.

Definition Generation_eqb (a b : Generation) : bool :=
  match a, b with
  | ACTIVE, ACTIVE | PENDING, PENDING | OLD, OLD => true
  | _, _ => false
  end.

(** The per-node configuration dict, by the keys [up] reads:
    [conf['seed']['unique_id']], [conf['seed_node'].get('verify', False)],
    [conf.get('brain_wrinkles', {})].  [None] is a missing key. *)
Record SeedConf : Type := { unique_id : option string }.
Record SeedNodeConf : Type := { verify : option bool }.
Record NodeConf : Type := {
  conf_seed : option SeedConf;
  conf_seed_node : option SeedNodeConf;
  conf_brain_wrinkles : option (list (string * string))
}.

(** A section of the environment configuration: node name to node
    configuration, in the order [items()] yields them. *)
Definition NodeConfs : Type := list (string * NodeConf).

Record EnvironmentConfig : Type := {
  ec2 : option NodeConfs;
  rds : option NodeConfs;
  elb : option NodeConfs
}.

(** [d.get(key, {})] on a section. *)
Definition get_or_empty (section : option NodeConfs) : NodeConfs :=
  match section with
  | Some confs => confs
  | None => []
  end.

(** [not confs]: the dict of configurations is empty, it has none of its
    sections. *)
Definition confs_empty (confs : EnvironmentConfig) : bool :=
  match ec2 confs, rds confs, elb confs with
  | None, None, None => true
  | _, _, _ => false
  end.

Record ConfigurationManager : Type := {
  get_environment_config : string -> EnvironmentConfig;
  get_seed_environment_name : string -> option string
}.

(** ** The collaborators' data *)

Record Deployment : Type := {
  deployment_name : string;
  deployment_ec2 : NodeConfs;
  deployment_rds : NodeConfs;
  deployment_elb : NodeConfs
}.

Inductive Klass : Type := Ec2NodeDeployment | RdsNodeDeployment.

Record NodeDeployer : Type := {
  klass : Klass;
  deployment : Deployment;
  seed_deployment : option Deployment;
  is_active : bool;
  aws_type : string;
  node_name : string;
  seed_node_name : option string;
  seed_verification : bool;
  brain_wrinkles : list (string * string);
  conf : NodeConf
}.

(** fabric's [env], by the keys the actions read. *)
Record Env : Type := {
  interactive : option bool;
  _active_gen : option bool;
  _deployment_name : option string;
  _deployment_confs : option EnvironmentConfig
}.

Definition set_active_gen (b : bool) (e : Env) : Env :=
  {| interactive := interactive e;
     _active_gen := Some b;
     _deployment_name := _deployment_name e;
     _deployment_confs := _deployment_confs e |}.

(** ** The cloud

    [N] is a handle on a node, [W] the state of the cloud.  The methods of
    [Deployment], [NodeDeployer] and [Node] that the actions call are the
    fields; the two that the actions expect to fail
    ([verify_deployment_state], [make_operational]) return the exception
    they raise, if any. *)
Class Cloud (N W : Type) : Type := {
  node_str : N -> string;
  deployment_str : Deployment -> string;
  verify_deployment_state : Deployment -> option bool -> W -> option Exn * W;
  has_required_redundancy : Deployment -> N -> W -> bool;
  repair_active_generation :
    Deployment -> bool -> option bool -> W -> list N * W;
  active_is_fully_operational : Deployment -> W -> bool;
  get_node : NodeDeployer -> W -> option N;
  ensure_node_created : NodeDeployer -> W -> W;
  run : NodeDeployer -> W -> W;
  is_operational : N -> W -> bool;
  is_healthy : N -> W -> bool;
  make_temporarily_inoperative : N -> W -> W;
  make_operational : N -> W -> option Exn * W;
  get_health_check_url : N -> W -> string;
  sleep : nat -> W -> W;
  announce_deployment : W -> W
}.

Inductive Level : Type := INFO | WARNING | CRITICAL.

(** What an action does that the outside can see, in order. *)
Inductive Event (N : Type) : Type :=
| Log (lvl : Level) (msg : string) (args : list string)
| Prompted (text : string)
| VerifyDeploymentState (d : Deployment) (verify_old : option bool)
| HasRequiredRedundancy (d : Deployment) (n : N)
| RepairActiveGeneration (d : Deployment) (force_operational : bool)
    (wait_until_operational : option bool)
| ActiveIsFullyOperational (d : Deployment)
| GetNode (dp : NodeDeployer)
| EnsureNodeCreated (dp : NodeDeployer)
| Run (dp : NodeDeployer)
| IsOperational (n : N)
| IsHealthy (n : N)
| MakeTemporarilyInoperative (n : N)
| MakeOperational (n : N)
| GetHealthCheckUrl (n : N)
| Sleep (secs : nat)
| AnnounceDeployment
| DesktopNotification (dp : NodeDeployer).

Arguments Log {N}.
Arguments Prompted {N}.
Arguments VerifyDeploymentState {N}.
Arguments HasRequiredRedundancy {N}.
Arguments RepairActiveGeneration {N}.
Arguments ActiveIsFullyOperational {N}.
Arguments GetNode {N}.
Arguments EnsureNodeCreated {N}.
Arguments Run {N}.
Arguments IsOperational {N}.
Arguments IsHealthy {N}.
Arguments MakeTemporarilyInoperative {N}.
Arguments MakeOperational {N}.
Arguments GetHealthCheckUrl {N}.
Arguments Sleep {N}.
Arguments AnnounceDeployment {N}.
Arguments DesktopNotification {N}.

(** How a computation ends: it returns, raises, ends the process
    ([exit(status)]), waits for an answer the operator never gives, or has
    run for more loop iterations than it was given. *)
Inductive Outcome (A : Type) : Type :=
| Returned (a : A)
| Raised (e : Exn)
| Exited (status : Z)
| AwaitingInput
| OutOfFuel.

Arguments Returned {A}.
Arguments Raised {A}.
Arguments Exited {A}.
Arguments AwaitingInput {A}.
Arguments OutOfFuel {A}.

Record Sys (N W : Type) : Type := mkSys {
  world : W;
  env : Env;
  stdin : list string;
  trace : list (Event N)
}.

Arguments mkSys {N W}.
Arguments world {N W}.
Arguments env {N W}.
Arguments stdin {N W}.
Arguments trace {N W}.

Definition M (N W A : Type) : Type := Sys N W -> Outcome A * Sys N W.

Definition ret {N W A} (a : A) : M N W A := fun s => (Returned a, s).

Definition bind {N W A B} (m : M N W A) (k : A -> M N W B) : M N W B :=
  fun s =>
    match m s with
    | (Returned a, s') => k a s'
    | (Raised e, s') => (Raised e, s')
    | (Exited c, s') => (Exited c, s')
    | (AwaitingInput, s') => (AwaitingInput, s')
    | (OutOfFuel, s') => (OutOfFuel, s')
    end.

Declare Scope action_scope.
Delimit Scope action_scope with action.
Notation "x <- m ;; k" := (bind m (fun x => k))
  (at level 61, m at next level, right associativity) : action_scope.
Notation "m ;; k" := (bind m (fun _ => k))
  (at level 61, right associativity) : action_scope.
Local Open Scope action_scope.

Definition raise {N W A} (e : Exn) : M N W A := fun s => (Raised e, s).
Definition exit {N W A} (status : Z) : M N W A := fun s => (Exited status, s).
Definition out_of_fuel {N W A} : M N W A := fun s => (OutOfFuel, s).

(** [assert cond]. *)
Definition assert {N W} (cond : bool) : M N W unit :=
  if cond then ret tt else raise AssertionError.

(** A value that formatting may have failed to build. *)
Definition lift_fmt {N W} (r : Exn + string) : M N W string :=
  match r with
  | inr s => ret s
  | inl e => raise e
  end.

Definition emit {N W} (e : Event N) : M N W unit :=
  fun s => (Returned tt,
            mkSys (world s) (env s) (stdin s) (trace s ++ [e])).

Definition read_world {N W A} (f : W -> A) : M N W A :=
  fun s => (Returned (f (world s)), s).

Definition update_world {N W} (f : W -> W) : M N W unit :=
  fun s => (Returned tt, mkSys (f (world s)) (env s) (stdin s) (trace s)).

Definition read_env {N W A} (f : Env -> A) : M N W A :=
  fun s => (Returned (f (env s)), s).

Definition update_env {N W} (f : Env -> Env) : M N W unit :=
  fun s => (Returned tt, mkSys (world s) (f (env s)) (stdin s) (trace s)).

(** [for x in xs: body(x)]. *)
Fixpoint for_each {N W A} (xs : list A) (body : A -> M N W unit)
  : M N W unit :=
  match xs with
  | [] => ret tt
  | x :: rest => body x ;; for_each rest body
  end.

(** A [for] loop that updates local variables [acc]. *)
Fixpoint for_fold {N W A B} (xs : list A) (acc : B)
  (body : B -> A -> M N W B) : M N W B :=
  match xs with
  | [] => ret acc
  | x :: rest => acc' <- body acc x ;; for_fold rest acc' body
  end.

(** [logger.info(msg, *args)] and its siblings. *)
Definition logger {N W} (lvl : Level) (msg : string) (args : list string)
  : M N W unit :=
  emit (Log lvl msg args).

(** fabric's [prompt(text)]: show [text], wait for a line of input.  With
    no input left the operator never answers. *)
Definition prompt {N W} (text : string) : M N W string :=
  fun s =>
    let shown := trace s ++ [Prompted text] in
    match stdin s with
    | [] => (AwaitingInput, mkSys (world s) (env s) [] shown)
    | answer :: rest =>
        (Returned answer, mkSys (world s) (env s) rest shown)
    end.

(** [user_opt = None; while not user_opt in opts: user_opt = prompt(text)],
    over the lines of input still to come.  [text] is the prompt text as
    the loop body builds it (the same at every turn). *)
Fixpoint ask_from {N} (opts : list string) (text : string)
  (inputs : list string) (shown : list (Event N))
  : option string * list string * list (Event N) :=
  match inputs with
  | [] => (None, [], shown ++ [Prompted text])
  | answer :: rest =>
      if py_in answer opts
      then (Some answer, rest, shown ++ [Prompted text])
      else ask_from opts text rest (shown ++ [Prompted text])
  end.

Definition prompt_until_in {N W} (opts : list string) (text : Exn + string)
  : M N W string :=
  fun s =>
    match text with
    | inl e => (Raised e, s)
    | inr t =>
        match ask_from opts t (stdin s) (trace s) with
        | (Some answer, rest, shown) =>
            (Returned answer, mkSys (world s) (env s) rest shown)
        | (None, rest, shown) =>
            (AwaitingInput, mkSys (world s) (env s) rest shown)
        end
    end.

(** ** The actions *)

Section Actions.

Context {N W : Type} `{Cloud N W}.

#[local] Abbreviation Act := (M N W).

(** *** Calls on the collaborators *)

Definition call_verify_deployment_state (d : Deployment)
  (verify_old : option bool) : Act unit :=
  emit (VerifyDeploymentState d verify_old) ;;
  failure <- (fun s =>
    let '(failure, w) := verify_deployment_state d verify_old (world s) in
    (Returned failure, mkSys w (env s) (stdin s) (trace s))) ;;
  match failure with
  | Some e => raise e
  | None => ret tt
  end.

Definition call_has_required_redundancy (d : Deployment) (n : N) : Act bool :=
  emit (HasRequiredRedundancy d n) ;;
  read_world (has_required_redundancy d n).

Definition call_repair_active_generation (d : Deployment)
  (force_operational : bool) (wait_until_operational : option bool)
  : Act (list N) :=
  emit (RepairActiveGeneration d force_operational wait_until_operational) ;;
  fun s =>
    let '(activated, w) :=
      repair_active_generation d force_operational wait_until_operational
        (world s) in
    (Returned activated, mkSys w (env s) (stdin s) (trace s)).

Definition call_active_is_fully_operational (d : Deployment) : Act bool :=
  emit (ActiveIsFullyOperational d) ;;
  read_world (active_is_fully_operational d).

Definition call_get_node (dp : NodeDeployer) : Act (option N) :=
  emit (GetNode dp) ;;
  read_world (get_node dp).

Definition call_ensure_node_created (dp : NodeDeployer) : Act unit :=
  emit (EnsureNodeCreated dp) ;;
  update_world (ensure_node_created dp).

Definition call_run (dp : NodeDeployer) : Act unit :=
  emit (Run dp) ;;
  update_world (run dp).

Definition node_is_operational (n : N) : Act bool :=
  emit (IsOperational n) ;;
  read_world (is_operational n).

Definition node_is_healthy (n : N) : Act bool :=
  emit (IsHealthy n) ;;
  read_world (is_healthy n).

(** [node.is_operational] and [node.is_healthy] where [node] has not been
    tested: on [None] the attribute access raises. *)
Definition attr_is_operational (node : option N) : Act bool :=
  match node with
  | Some n => node_is_operational n
  | None =>
      raise (AttributeError
               "'NoneType' object has no attribute 'is_operational'")
  end.

Definition attr_is_healthy (node : option N) : Act bool :=
  match node with
  | Some n => node_is_healthy n
  | None =>
      raise (AttributeError
               "'NoneType' object has no attribute 'is_healthy'")
  end.

Definition call_make_temporarily_inoperative (n : N) : Act unit :=
  emit (MakeTemporarilyInoperative n) ;;
  update_world (make_temporarily_inoperative n).

(** [node.make_operational()], returning what it raised, for the
    [try ... except Exception] around it. *)
Definition try_make_operational (n : N) : Act (option Exn) :=
  emit (MakeOperational n) ;;
  fun s =>
    let '(failure, w) := make_operational n (world s) in
    (Returned failure, mkSys w (env s) (stdin s) (trace s)).

Definition call_get_health_check_url (n : N) : Act string :=
  emit (GetHealthCheckUrl n) ;;
  read_world (get_health_check_url n).

Definition time_sleep (secs : nat) : Act unit :=
  emit (Sleep secs) ;;
  update_world (sleep secs).

Definition _announce_deployment : Act unit :=
  emit AnnounceDeployment ;;
  update_world announce_deployment.

(** *** [_order_ec2_deployers_by_priority] *)

Record Buckets : Type := mkBuckets {
  io_unhealthy : list NodeDeployer;
  io_healthy : list NodeDeployer;
  o_unhealthy : list NodeDeployer;
  o_healthy : list NodeDeployer
}.

Definition classify_deployer (b : Buckets) (ec2_deployer : NodeDeployer)
  : Act Buckets :=
  let deployer := ec2_deployer in
  node <- call_get_node deployer ;;
  operational <- attr_is_operational node ;;
  if operational then
    healthy <- attr_is_healthy node ;;
    if healthy then
      ret (mkBuckets (io_unhealthy b) (io_healthy b) (o_unhealthy b)
             (o_healthy b ++ [ec2_deployer]))
    else
      ret (mkBuckets (io_unhealthy b) (io_healthy b)
             (o_unhealthy b ++ [ec2_deployer]) (o_healthy b))
  else
    healthy <- attr_is_healthy node ;;
    if healthy then
      ret (mkBuckets (io_unhealthy b) (io_healthy b ++ [ec2_deployer])
             (o_unhealthy b) (o_healthy b))
    else
      ret (mkBuckets (io_unhealthy b ++ [ec2_deployer]) (io_healthy b)
             (o_unhealthy b) (o_healthy b)).

Definition _order_ec2_deployers_by_priority
  (ec2_deployers : list NodeDeployer) : Act (list NodeDeployer) :=
  b <- for_fold ec2_deployers (mkBuckets [] [] [] []) classify_deployer ;;
  ret (io_healthy b ++ io_unhealthy b ++ o_unhealthy b ++ o_healthy b).

(** *** [_prompt_for_seed_verification] *)

Definition _prompt_for_seed_verification (deployer : NodeDeployer)
  : Act unit :=
  let opts := ["Yes"; "No"] in
  let prompt_str :=
    "Requiring seed data verification. Node %s-%s WILL be affected Continue? (%s)?" in
  let context :=
    [py_str deployment_str (seed_deployment deployer);
     py_str (fun x => x) (seed_node_name deployer);
     join "/" opts] in
  user_opt <- prompt_until_in opts (py_format prompt_str context) ;;
  if negb (user_opt =? "Yes") then
    logger CRITICAL "Node %s-%s would be affected. Aborting deployment"
      [py_str deployment_str (seed_deployment deployer);
       py_str (fun x => x) (seed_node_name deployer)] ;;
    exit 1
  else ret tt.

(** *** [seamless_modification] *)

Definition auto_retries : nat := 10.

Definition nl : string := String (ascii_of_nat 10) "".

(** Lines 312-332: the redundancy check before the node is touched. *)
Definition check_redundancy (node : option N) (deployment : Deployment)
  (force_seamless : bool) : Act unit :=
  match node with
  | Some n =>
      if force_seamless then
        redundant <- call_has_required_redundancy deployment n ;;
        if negb redundant then
          is_interactive <- read_env (fun e =>
            match interactive e with
            | Some b => b
            | None => true
            end) ;;
          if is_interactive then
            text <- lift_fmt (py_format
              (nl ++ nl ++
               "Not possible to avoid service interruption to node %s. Continue anyway? (Y/N)")%string
              [node_str n]) ;;
            continue_anyway <- prompt text ;;
            if negb (continue_anyway =? "Y") then
              msg <- lift_fmt (py_format
                "Node %s doesn't have required redundancy. Aborting"
                [node_str n]) ;;
              logger CRITICAL msg [] ;;
              exit 1
            else ret tt
          else
            logger CRITICAL
              "Not possible to avoid service interruption to node %s"
              [node_str n] ;;
            logger CRITICAL "Deployment marked non-interactive. Aborting." [] ;;
            exit 1
        else ret tt
      else ret tt
  | None => ret tt
  end.

(** Lines 336-341: an operational node is rotated out; the result is the
    new value of [make_operational]. *)
Definition rotate_out (node : option N) (make_operational : bool)
  : Act bool :=
  match node with
  | Some n =>
      operational <- node_is_operational n ;;
      if operational then
        logger INFO "Making temporarily inoperative: %s" [node_str n] ;;
        call_make_temporarily_inoperative n ;;
        logger INFO "Node %s now inoperative" [node_str n] ;;
        ret true
      else ret make_operational
  | None => ret make_operational
  end.

(** Lines 355-399: the [while True] of the known-node case, with its local
    [count].  [fuel] bounds the number of turns of the loop. *)
Fixpoint restore_node (fuel : nat) (n : N) (count : nat) : Act unit :=
  match fuel with
  | O => out_of_fuel
  | S fuel' =>
      let opts := ["I"; "R"; "F"] in
      let prompt_str :=
        "Node %s not made operational. Ignore/Retry/Fail (I/R/F)?" in
      failure <- try_make_operational n ;;
      match failure with
      | Some _ =>
          logger WARNING "Failed to make node %s operational" [node_str n]
      | None => ret tt
      end ;;
      operational <- node_is_operational n ;;
      if operational then
        logger INFO "Node %s now operational" [node_str n]
      else
        logger INFO "Waiting 1s for node to become operational" [] ;;
        time_sleep 1 ;;
        operational <- node_is_operational n ;;
        if operational then
          logger INFO "Node %s now operational" [node_str n]
        else if (count <? auto_retries)%nat then
          logger INFO "Still not operational. Trying again." [] ;;
          restore_node fuel' n (count + 1)
        else
          logger INFO "Node %s not operational." [node_str n] ;;
          url <- call_get_health_check_url n ;;
          logger INFO "Health check URL: %s" [url] ;;
          user_opt <- prompt_until_in opts
                        (py_format prompt_str [node_str n]) ;;
          if user_opt =? "R" then restore_node fuel' n count
          else if user_opt =? "I" then ret tt
          else if user_opt =? "F" then
            logger CRITICAL "Node %s not healthy. Aborting deployment"
              [node_str n] ;;
            exit 1
          else restore_node fuel' n count
  end.

(** Lines 407-426: the [while True] of the unknown-node case.  [node] is
    the falsy node, which the prompt text is formatted with. *)
Fixpoint restore_generation (fuel : nat) (node : option N)
  (deployment : Deployment) (make_operational : bool) : Act unit :=
  match fuel with
  | O => out_of_fuel
  | S fuel' =>
      let opts := ["I"; "R"; "F"] in
      let prompt_str :=
        ("Active generation not fully operational. "
         ++ "Ignore/Retry/Fail (I/R/F)?")%string in
      call_repair_active_generation deployment make_operational (Some false) ;;
      operational <- call_active_is_fully_operational deployment ;;
      if operational then
        logger INFO "Active generation is fully operational" []
      else
        user_opt <- prompt_until_in opts
                      (py_format prompt_str [py_str node_str node]) ;;
        if user_opt =? "R" then
          restore_generation fuel' node deployment make_operational
        else if user_opt =? "I" then ret tt
        else if user_opt =? "F" then
          logger CRITICAL "Active generation not fully operational. Aborting"
            [] ;;
          exit 1
        else restore_generation fuel' node deployment make_operational
  end.

(** Lines 345-426: what runs after the [yield]. *)
Definition restore_operation (fuel : nat) (node : option N)
  (deployment : Deployment) (make_operational : bool) : Act unit :=
  if make_operational then
    logger INFO "Restoring operation: %s" [py_str node_str node] ;;
    match node with
    | Some n => restore_node fuel n 0
    | None => restore_generation fuel node deployment make_operational
    end
  else ret tt.

(** The context manager: [body] is the block of the [with] statement, run
    at the [yield]. *)
Definition seamless_modification (fuel : nat) (node : option N)
  (deployment : Deployment) (force_seamless : bool)
  (make_operational_if_not_already : bool) (body : Act unit) : Act unit :=
  let make_operational := make_operational_if_not_already in
  check_redundancy node deployment force_seamless ;;
  make_operational <- rotate_out node make_operational ;;
  body ;;
  restore_operation fuel node deployment make_operational.

(** *** [up] *)

(** What [up] takes from [neckbeard.actions.contrib_hooks]: the git
    validation of lines 71-90, the pager hand-over of lines 95-102 and the
    constant [DT_NOTIFY]. *)
Record ContribHooks : Type := {
  git_validation : Act unit;
  take_temporary_pagerduty : Act unit;
  DT_NOTIFY : bool
}.

(** [d.get(key, False)] on a dict of flags. *)
Fixpoint dict_get_flag (d : list (string * bool)) (key : string) : bool :=
  match d with
  | [] => false
  | (k, v) :: rest => if k =? key then v else dict_get_flag rest key
  end.

(** [d[key]], where [value] is what the dict holds under [key]. *)
Definition dict_item {A : Type} (key : string) (value : option A) : Act A :=
  match value with
  | Some v => ret v
  | None => raise (KeyError key)
  end.

(** [Deployment(name, config.get('ec2', {}), config.get('rds', {}),
    config.get('elb', {}))]. *)
Definition make_deployment (name : string) (config : EnvironmentConfig)
  : Deployment :=
  {| deployment_name := name;
     deployment_ec2 := get_or_empty (ec2 config);
     deployment_rds := get_or_empty (rds config);
     deployment_elb := get_or_empty (elb config) |}.

(** Lines 67-102. *)
Definition pre_deploy_validation (hooks : ContribHooks) : Act unit :=
  let git_conf : list (string * bool) := [] in
  (if dict_get_flag git_conf "enable" then git_validation hooks
   else ret tt) ;;
  let pagerduty_conf : list (string * bool) := [] in
  if dict_get_flag pagerduty_conf "temporarily_become_oncall" then
    logger INFO "Taking Pagerduty, temporarily" [] ;;
    take_temporary_pagerduty hooks
  else ret tt.

(** Lines 104-117. *)
Definition gather_deployment_state (configuration_manager : ConfigurationManager)
  (environment_name : string) : Act (EnvironmentConfig * Deployment) :=
  logger INFO "Gathering deployment state" [] ;;
  let environment_config :=
    get_environment_config configuration_manager environment_name in
  let deployment := make_deployment environment_name environment_config in
  call_verify_deployment_state deployment (Some false) ;;
  ret (environment_config, deployment).

(** Lines 121-140. *)
Definition gather_seed_deployment_state
  (configuration_manager : ConfigurationManager) (environment_name : string)
  : Act (option Deployment) :=
  logger INFO "Gathering seed deployment state" [] ;;
  let seed_deployment_name :=
    get_seed_environment_name configuration_manager environment_name in
  match seed_deployment_name with
  | Some name =>
      if negb (name =? "") then
        let seed_config :=
          get_environment_config configuration_manager name in
        let seed_deployment := make_deployment name seed_config in
        logger INFO "Verifying seed deployment state" [] ;;
        call_verify_deployment_state seed_deployment (Some false) ;;
        ret (Some seed_deployment)
      else ret None
  | None => ret None
  end.

(** Lines 162-192: the body of the inner [for], on the two lists it
    appends to. *)
Definition build_deployer (deployment : Deployment)
  (seed_deployment : option Deployment) (aws_type : string)
  (deployers : list NodeDeployer * list NodeDeployer)
  (item : string * NodeConf)
  : Act (list NodeDeployer * list NodeDeployer) :=
  let '(ec2_deployers, rds_deployers) := deployers in
  let '(node_name, conf) := item in
  seed <- match seed_deployment, conf_seed conf with
          | Some _, Some seed_conf =>
              seed_node_name <- dict_item "unique_id" (unique_id seed_conf) ;;
              seed_node <- dict_item "seed_node" (conf_seed_node conf) ;;
              ret (Some seed_node_name,
                   match verify seed_node with
                   | Some b => b
                   | None => false
                   end)
          | _, _ =>
              logger INFO "No seed node configured" [] ;;
              ret (None, false)
          end ;;
  let '(seed_node_name, verify_seed_data) := seed in
  klass <- (if aws_type =? "ec2" then ret Ec2NodeDeployment
            else if aws_type =? "rds" then ret RdsNodeDeployment
            else raise (UnboundLocalError "klass")) ;;
  active_gen <- read_env _active_gen ;;
  active_gen <- match active_gen with
                | Some b => ret b
                | None => raise (AttributeError "_active_gen")
                end ;;
  let deployer :=
    {| klass := klass;
       deployment := deployment;
       seed_deployment := seed_deployment;
       is_active := active_gen;
       aws_type := aws_type;
       node_name := node_name;
       seed_node_name := seed_node_name;
       seed_verification := verify_seed_data;
       brain_wrinkles := match conf_brain_wrinkles conf with
                         | Some wrinkles => wrinkles
                         | None => []
                         end;
       conf := conf |} in
  if aws_type =? "ec2" then ret (ec2_deployers ++ [deployer], rds_deployers)
  else if aws_type =? "rds" then
    ret (ec2_deployers, rds_deployers ++ [deployer])
  else ret (ec2_deployers, rds_deployers).

(** Lines 143-192; the result is [(ec2_deployers, rds_deployers)]. *)
Definition build_deployers (environment_config : EnvironmentConfig)
  (deployment : Deployment) (seed_deployment : option Deployment)
  : Act (list NodeDeployer * list NodeDeployer) :=
  logger INFO "Building Node deployers" [] ;;
  let dep_confs :=
    [("rds", get_or_empty (ec2 environment_config));
     ("ec2", get_or_empty (rds environment_config))] in
  for_fold dep_confs ([], [])
    (fun deployers dep_conf =>
       let '(aws_type, node_confs) := dep_conf in
       for_fold node_confs deployers
         (build_deployer deployment seed_deployment aws_type)).

(** Lines 200-204 and 208-212: one batch is provisioned. *)
Definition provision_node (deployer : NodeDeployer) : Act unit :=
  (if seed_verification deployer then
     node <- call_get_node deployer ;;
     match node with
     | None => _prompt_for_seed_verification deployer
     | Some _ => ret tt
     end
   else ret tt) ;;
  call_ensure_node_created deployer.

Definition provision_nodes (deployers : list NodeDeployer) : Act unit :=
  for_each deployers provision_node.

(** Lines 225-247: one EC2 deployer is deployed to.  [make_operational] is
    the local of [up], bound only when the generation is the active one. *)
Definition deploy_ec2_node (fuel : nat) (hooks : ContribHooks)
  (make_operational : option bool) (deployer : NodeDeployer) : Act unit :=
  node <- call_get_node deployer ;;
  force_seamless <- read_env _active_gen ;;
  force_seamless <- match force_seamless with
                    | Some b => ret b
                    | None => raise (AttributeError "_active_gen")
                    end ;;
  make_operational <- match make_operational with
                      | Some b => ret b
                      | None => raise (UnboundLocalError "make_operational")
                      end ;;
  seamless_modification fuel node (deployment deployer) force_seamless
    make_operational (call_run deployer) ;;
  if DT_NOTIFY hooks then emit (DesktopNotification deployer) else ret tt.

(** Lines 197-249: what follows the [assert].  The timing breakdown of
    lines 251-258 reads the wall clock and is left out. *)
Definition rollout (fuel : nat) (hooks : ContribHooks)
  (make_operational : option bool)
  (ec2_deployers rds_deployers : list NodeDeployer) : Act unit :=
  logger INFO "Provisioning RDS nodes" [] ;;
  provision_nodes rds_deployers ;;
  logger INFO "Provisioning EC2 nodes" [] ;;
  provision_nodes ec2_deployers ;;
  logger INFO "Configuring RDS nodes" [] ;;
  for_each rds_deployers call_run ;;
  logger INFO "Determining EC2 node deploy priority" [] ;;
  ec2_deployers <- _order_ec2_deployers_by_priority ec2_deployers ;;
  logger INFO "Deploying to EC2 nodes" [] ;;
  for_each ec2_deployers (deploy_ec2_node fuel hooks make_operational) ;;
  _announce_deployment.

(** Lines 61-192: [up] as far as the end of the deployer-building phase. *)
Definition up_build (hooks : ContribHooks) (environment_name : string)
  (configuration_manager : ConfigurationManager)
  : Act (list NodeDeployer * list NodeDeployer) :=
  update_env (set_active_gen true) ;;
  pre_deploy_validation hooks ;;
  gathered <- gather_deployment_state configuration_manager environment_name ;;
  let '(environment_config, deployment) := gathered in
  seed_deployment <-
    gather_seed_deployment_state configuration_manager environment_name ;;
  build_deployers environment_config deployment seed_deployment.

Definition up (fuel : nat) (hooks : ContribHooks) (environment_name : string)
  (configuration_manager : ConfigurationManager) (resource_tracker : unit)
  (generation : Generation) : Act unit :=
  let make_operational :=
    if Generation_eqb generation ACTIVE then Some true else None in
  deployers <- up_build hooks environment_name configuration_manager ;;
  let '(ec2_deployers, rds_deployers) := deployers in
  assert false ;;
  rollout fuel hooks make_operational ec2_deployers rds_deployers.

(** *** [repair] *)

(** fabric's [require(key)]: the run is aborted when [env] has no such
    key, and also when the value under the key is an empty dict, list,
    tuple or set.  [empty] tells whether a value is such an empty
    container; it is constantly false for a value that is no container. *)
Definition require {A : Type} (value : Env -> option A) (empty : A -> bool)
  : Act A :=
  found <- read_env value ;;
  match found with
  | Some v => if empty v then exit 1 else ret v
  | None => exit 1
  end.

(** [str(n)] of a length. *)
Definition str_of_nat (n : nat) : string :=
  NilEmpty.string_of_uint (Nat.to_uint n).

Definition repair (force : string) : Act unit :=
  name <- require _deployment_name (fun _ => false) ;;
  confs <- require _deployment_confs confs_empty ;;
  active_gen <- require _active_gen (fun _ => false) ;;
  let force := force =? "y" in
  assert active_gen ;;
  ec2_confs <- dict_item "ec2" (ec2 confs) ;;
  rds_confs <- dict_item "rds" (rds confs) ;;
  elb_confs <- dict_item "elb" (elb confs) ;;
  let deployment :=
    {| deployment_name := name;
       deployment_ec2 := ec2_confs;
       deployment_rds := rds_confs;
       deployment_elb := elb_confs |} in
  call_verify_deployment_state deployment None ;;
  activated_nodes <- call_repair_active_generation deployment force None ;;
  if (0 <? List.length activated_nodes)%nat then
    logger INFO "Succesfully made %s node(s) operational"
      [str_of_nat (List.length activated_nodes)]
  else
    logger INFO "No nodes modified" [].

End Actions.

(** ** Vocabulary of the statements *)

Section Vocabulary.

Context {N W : Type} `{Cloud N W}.

(** The deployer's node exists and falls in the bucket
    [(operational, healthy)]. *)
Definition in_bucket (w : W) (operational healthy : bool)
  (dp : NodeDeployer) : bool :=
  match get_node dp w with
  | Some n =>
      Bool.eqb (is_operational n w) operational
      && Bool.eqb (is_healthy n w) healthy
  | None => false
  end.

Definition node_exists (w : W) (dp : NodeDeployer) : Prop :=
  get_node dp w <> None.

(** The order the docstring of [_order_ec2_deployers_by_priority]
    documents. *)
Definition documented_order (w : W) (ds : list NodeDeployer)
  : list NodeDeployer :=
  filter (in_bucket w false false) ds ++ filter (in_bucket w false true) ds
  ++ filter (in_bucket w true false) ds ++ filter (in_bucket w true true) ds.

(** The order its [return] statement builds. *)
Definition returned_order (w : W) (ds : list NodeDeployer)
  : list NodeDeployer :=
  filter (in_bucket w false true) ds ++ filter (in_bucket w false false) ds
  ++ filter (in_bucket w true false) ds ++ filter (in_bucket w true true) ds.

(** Events that only read the cloud. *)
Definition is_query (e : Event N) : bool :=
  match e with
  | GetNode _ | IsOperational _ | IsHealthy _ | HasRequiredRedundancy _ _
  | ActiveIsFullyOperational _ | GetHealthCheckUrl _ => true
  | _ => false
  end.

(** Events of the phases of [up] that come before the [assert]. *)
Definition is_gathering (e : Event N) : bool :=
  match e with
  | Log _ _ _ | VerifyDeploymentState _ _ => true
  | _ => false
  end.

Definition is_make_operational (e : Event N) : bool :=
  match e with
  | MakeOperational _ => true
  | _ => false
  end.

Definition is_prompt (e : Event N) : bool :=
  match e with
  | Prompted _ => true
  | _ => false
  end.

Definition is_ensure_node_created (e : Event N) : bool :=
  match e with
  | EnsureNodeCreated _ => true
  | _ => false
  end.

(** The buckets after [dp], whose node is [(operational, healthy)], has
    been appended to its own. *)
Definition place (b : Buckets) (operational healthy : bool)
  (dp : NodeDeployer) : Buckets :=
  match operational, healthy with
  | true, true =>
      mkBuckets (io_unhealthy b) (io_healthy b) (o_unhealthy b)
        (o_healthy b ++ [dp])
  | true, false =>
      mkBuckets (io_unhealthy b) (io_healthy b) (o_unhealthy b ++ [dp])
        (o_healthy b)
  | false, true =>
      mkBuckets (io_unhealthy b) (io_healthy b ++ [dp]) (o_unhealthy b)
        (o_healthy b)
  | false, false =>
      mkBuckets (io_unhealthy b ++ [dp]) (io_healthy b) (o_unhealthy b)
        (o_healthy b)
  end.

(** The buckets after a whole batch has been appended. *)
Definition fill (w : W) (b : Buckets) (ds : list NodeDeployer) : Buckets :=
  mkBuckets
    (io_unhealthy b ++ filter (in_bucket w false false) ds)
    (io_healthy b ++ filter (in_bucket w false true) ds)
    (o_unhealthy b ++ filter (in_bucket w true false) ds)
    (o_healthy b ++ filter (in_bucket w true true) ds).

(** How many of the events satisfy [p]. *)
Definition count_events (p : Event N -> bool) (evs : list (Event N)) : nat :=
  List.length (filter p evs).

(** The text of the prompt of the known-node loop. *)
Definition node_prompt_text (n : N) : string :=
  ("Node " ++ node_str n
   ++ " not made operational. Ignore/Retry/Fail (I/R/F)?")%string.

(** One turn of the known-node loop on a node that stays out of service,
    up to the test of [count]: the cloud after it and the events of it. *)
Definition after_attempt (n : N) (w : W) : W :=
  sleep 1 (snd (make_operational n w)).

Definition attempt_events (n : N) (w : W) : list (Event N) :=
  MakeOperational n
  :: match fst (make_operational n w) with
     | Some _ => [Log WARNING "Failed to make node %s operational" [node_str n]]
     | None => []
     end
  ++ [IsOperational n;
      Log INFO "Waiting 1s for node to become operational" [];
      Sleep 1;
      IsOperational n].

(** What the loop reports before it shows the prompt. *)
Definition escalation_report (n : N) (w : W) : list (Event N) :=
  [Log INFO "Node %s not operational." [node_str n];
   GetHealthCheckUrl n;
   Log INFO "Health check URL: %s" [get_health_check_url n w]].

(** The turns of a trace, each closed by the prompt [text]. *)
Definition prompted_turns (text : string) (turns : list (list (Event N)))
  : list (Event N) :=
  List.concat (map (fun turn => turn ++ [Prompted text]) turns).

(** What the known-node loop logs after the operator's last answer. *)
Definition closing_events (n : N) (final : string) : list (Event N) :=
  if final =? "F"
  then [Log CRITICAL "Node %s not healthy. Aborting deployment" [node_str n]]
  else [].

(** How the loop ends on the operator's last answer. *)
Definition final_outcome (final : string) : Outcome unit :=
  if final =? "I" then Returned tt else Exited 1.

(** The text of the seed verification prompt for [dp]. *)
Definition seed_prompt_text (dp : NodeDeployer) : string :=
  ("Requiring seed data verification. Node "
   ++ py_str deployment_str (seed_deployment dp) ++ "-"
   ++ py_str (fun x => x) (seed_node_name dp)
   ++ " WILL be affected Continue? (Yes/No)?")%string.

(** An answer the seed verification prompt does not take. *)
Definition not_yes_no (answer : string) : Prop :=
  py_in answer ["Yes"; "No"] = false.

(** The log line [repair] ends with, by the nodes that were activated. *)
Definition repair_report (activated_nodes : list N) : Event N :=
  match activated_nodes with
  | [] => Log INFO "No nodes modified" []
  | _ :: _ =>
      Log INFO "Succesfully made %s node(s) operational"
        [str_of_nat (List.length activated_nodes)]
  end.

(** [w'] is [w] after some calls of [verify_deployment_state], and nothing
    else. *)
Inductive only_verified : W -> W -> Prop :=
| only_verified_refl (w : W) : only_verified w w
| only_verified_step (w w' : W) (d : Deployment) (verify_old : option bool) :
    only_verified w w' ->
    only_verified w (snd (verify_deployment_state d verify_old w')).

(** A computation that does nothing but log and verify deployment states,
    however it ends: no prompt is shown, no input consumed, no node
    queried, created, configured or rotated. *)
Definition gathers_only {A : Type} (m : M N W A) : Prop :=
  forall s : Sys N W,
    (exists evs,
        trace (snd (m s)) = trace s ++ evs
        /\ forallb is_gathering evs = true)
    /\ stdin (snd (m s)) = stdin s
    /\ only_verified (world s) (world (snd (m s))).

(** The deployer [up] builds for a configured node when there is no seed
    deployment. *)
Definition seedless_deployer (d : Deployment) (k : Klass) (type : string)
  (active : bool) (item : string * NodeConf) : NodeDeployer :=
  {| klass := k;
     deployment := d;
     seed_deployment := None;
     is_active := active;
     aws_type := type;
     node_name := fst item;
     seed_node_name := None;
     seed_verification := false;
     brain_wrinkles := match conf_brain_wrinkles (snd item) with
                       | Some wrinkles => wrinkles
                       | None => []
                       end;
     conf := snd item |}.

(** What the scheduler asks about one deployer: its node, and of the node
    whether it is operational and whether it is healthy. *)
Definition query_events (w : W) (dp : NodeDeployer) : list (Event N) :=
  match get_node dp w with
  | Some n => [GetNode dp; IsOperational n; IsHealthy n]
  | None => [GetNode dp]
  end.

(** The deployer's node exists and is, or is not, operational. *)
Definition operational_in (w : W) (operational : bool) (dp : NodeDeployer)
  : bool :=
  in_bucket w operational false dp || in_bucket w operational true dp.

(** The state with [evs] more events in its trace. *)
Definition traced (s : Sys N W) (evs : list (Event N)) : Sys N W :=
  mkSys (world s) (env s) (stdin s) (trace s ++ evs).

(** [env.get('interactive', True)]. *)
Definition is_attended (e : Env) : bool :=
  match interactive e with
  | Some b => b
  | None => true
  end.

(** The text of the prompt shown when a node cannot be rotated without
    interrupting service. *)
Definition redundancy_prompt_text (n : N) : string :=
  (nl ++ nl ++ "Not possible to avoid service interruption to node "
   ++ node_str n ++ ". Continue anyway? (Y/N)")%string.

(** What [seamless_modification] does to take an operational node out of
    service. *)
Definition rotation_events (n : N) : list (Event N) :=
  [IsOperational n;
   Log INFO "Making temporarily inoperative: %s" [node_str n];
   MakeTemporarilyInoperative n;
   Log INFO "Node %s now inoperative" [node_str n]].

(** The state in which the block of the [with] statement starts, for a
    known node and once the redundancy check is behind: an operational node
    has been rotated out, another has only been asked. *)
Definition entered (n : N) (s : Sys N W) : Sys N W :=
  if is_operational n (world s)
  then mkSys (make_temporarily_inoperative n (world s)) (env s) (stdin s)
         (trace s ++ rotation_events n)
  else traced s [IsOperational n].

(** One call of [make_operational], with the warning logged when it
    raises. *)
Definition make_operational_events (n : N) (w : W) : list (Event N) :=
  MakeOperational n
  :: match fst (make_operational n w) with
     | Some _ => [Log WARNING "Failed to make node %s operational" [node_str n]]
     | None => []
     end.

Definition is_returned {A : Type} (o : Outcome A) : bool :=
  match o with
  | Returned _ => true
  | _ => false
  end.

(** The cloud after [k] turns of the known-node loop on [n]. *)
Definition after_attempts (n : N) (k : nat) (w : W) : W :=
  Nat.iter k (after_attempt n) w.

(** [n] is out of service at both tests of each of the first [k] turns of
    the known-node loop started in [w]. *)
Definition down_for (n : N) (k : nat) (w : W) : Prop :=
  forall j, j < k ->
    is_operational n (snd (make_operational n (after_attempts n j w))) = false
    /\ is_operational n (after_attempts n (S j) w) = false.

Definition is_sleep (e : Event N) : bool :=
  match e with
  | Sleep _ => true
  | _ => false
  end.

(** The events of the first [k] turns of the known-node loop started in
    [w], each a failed attempt followed by the announcement of the next. *)
Fixpoint retry_events (n : N) (k : nat) (w : W) : list (Event N) :=
  match k with
  | O => []
  | S k' =>
      attempt_events n w
      ++ [Log INFO "Still not operational. Trying again." []]
      ++ retry_events n k' (after_attempt n w)
  end.

(** The cloud after [ensure_node_created] has been called for each of the
    deployers, in order. *)
Definition all_created (ds : list NodeDeployer) (w : W) : W :=
  fold_left (fun w' dp => ensure_node_created dp w') ds w.

(** [configuration_manager]'s seed deployment for an environment, as [up]
    builds it; [None] when the environment has no seed environment. *)
Definition seed_deployment_of (configuration_manager : ConfigurationManager)
  (environment_name : string) : option Deployment :=
  match get_seed_environment_name configuration_manager environment_name with
  | Some name =>
      if negb (name =? "") then
        Some (make_deployment name
                (get_environment_config configuration_manager name))
      else None
  | None => None
  end.

(** [dp] is a deployer of class [k] and type [type] for the configured
    node [item] of deployment [d]: it carries the node's name and
    configuration, and its seed node is the one the configuration names
    when there is a seed deployment, with verification as the key 'verify'
    of 'seed_node' asks and off by default. *)
Definition built_for (d : Deployment) (sd : option Deployment) (k : Klass)
  (type : string) (active : bool) (item : string * NodeConf)
  (dp : NodeDeployer) : Prop :=
  klass dp = k /\ deployment dp = d /\ seed_deployment dp = sd
  /\ is_active dp = active /\ aws_type dp = type
  /\ node_name dp = fst item /\ conf dp = snd item
  /\ match sd, conf_seed (snd item) with
     | Some _, Some seed_conf =>
         exists name seed_node,
           unique_id seed_conf = Some name
           /\ conf_seed_node (snd item) = Some seed_node
           /\ seed_node_name dp = Some name
           /\ seed_verification dp = match verify seed_node with
                                     | Some b => b
                                     | None => false
                                     end
     | _, _ => seed_node_name dp = None /\ seed_verification dp = false
     end.

(** The first of the keys 'ec2', 'rds', 'elb' that the deployment
    configurations lack. *)
Definition first_missing_section (confs : EnvironmentConfig)
  : option string :=
  match ec2 confs, rds confs, elb confs with
  | None, _, _ => Some "ec2"
  | Some _, None, _ => Some "rds"
  | Some _, Some _, None => Some "elb"
  | Some _, Some _, Some _ => None
  end.



Definition is_operational_test (e : Event N) : bool :=
  match e with
  | IsOperational _ => true
  | _ => false
  end.

(** The turn of the known-node loop that ends in the prompt, started in
    [w]: the attempt with its wait and second test, then the report. *)
Definition escalated_turn (n : N) (w : W) : list (Event N) :=
  attempt_events n w ++ escalation_report n (after_attempt n w).

(** What the restoration of a node that stays out of service does before
    its first prompt, started in [w]: [auto_retries] attempts each followed
    by the announcement of the next, then one more followed by the
    report. *)
Definition bounded_phase (n : N) (w : W) : list (Event N) :=
  Log INFO "Restoring operation: %s" [node_str n]
  :: retry_events n auto_retries w
  ++ escalated_turn n (after_attempts n auto_retries w).

(** The turns that [k] answers "R" bring about, the first of them started
    in [w]. *)
Fixpoint retried_turns (n : N) (k : nat) (w : W)
  : list (list (Event N)) :=
  match k with
  | O => []
  | S k' => escalated_turn n w :: retried_turns n k' (after_attempt n w)
  end.

(** The events of a turn hold exactly one [make_operational], one wait,
    the two tests of the node, and no prompt. *)
Definition one_full_attempt (evs : list (Event N)) : Prop :=
  count_events is_make_operational evs = 1
  /\ count_events is_sleep evs = 1
  /\ count_events is_operational_test evs = 2
  /\ count_events is_prompt evs = 0.

End Vocabulary.

(** ** A small cloud to run the actions on

    Nodes are numbers; a deployer's node is looked up by its name.  Node
    [0] is one that no load balancer ever takes into service. *)

Module Toy.

Record World : Type := mkWorld {
  nodes : list (string * nat);
  in_service : list nat;
  passing : list nat;
  consistent : bool
}.

Definition mem (n : nat) (l : list nat) : bool := existsb (Nat.eqb n) l.

Fixpoint lookup (name : string) (l : list (string * nat)) : option nat :=
  match l with
  | [] => None
  | (k, n) :: rest => if k =? name then Some n else lookup name rest
  end.

Definition operational (n : nat) (w : World) : bool :=
  negb (n =? 0)%nat && mem n (in_service w).

Definition put_in_service (ns : list nat) (w : World) : World :=
  mkWorld (nodes w) (ns ++ in_service w) (passing w) (consistent w).

Definition take_out_of_service (n : nat) (w : World) : World :=
  mkWorld (nodes w) (filter (fun m => negb (m =? n)%nat) (in_service w))
    (passing w) (consistent w).

Definition repairable (force : bool) (w : World) : list nat :=
  filter (fun n => negb (operational n w) && (force || mem n (passing w)))
    (map snd (nodes w)).

#[global] Instance cloud : Cloud nat World := {|
  node_str := fun n => ("node-" ++ str_of_nat n)%string;
  deployment_str := deployment_name;
  verify_deployment_state := fun _ _ w =>
    if consistent w then (None, w)
    else (Some (ExternalError "inconsistent deployment state"), w);
  has_required_redundancy := fun _ n w =>
    (1 <=? List.length (in_service (take_out_of_service n w)))%nat;
  repair_active_generation := fun _ force _ w =>
    (repairable force w, put_in_service (repairable force w) w);
  active_is_fully_operational := fun _ w =>
    forallb (fun n => operational n w) (map snd (nodes w));
  get_node := fun dp w => lookup (node_name dp) (nodes w);
  ensure_node_created := fun dp w =>
    match lookup (node_name dp) (nodes w) with
    | Some _ => w
    | None =>
        mkWorld ((node_name dp, S (List.length (nodes w))) :: nodes w)
          (in_service w) (passing w) (consistent w)
    end;
  run := fun _ w => w;
  is_operational := operational;
  is_healthy := fun n w => mem n (passing w);
  make_temporarily_inoperative := take_out_of_service;
  make_operational := fun n w =>
    if mem n (passing w) then (None, put_in_service [n] w)
    else (Some (ExternalError "health check failed"), w);
  get_health_check_url := fun n _ =>
    ("http://node-" ++ str_of_nat n ++ "/health")%string;
  sleep := fun _ w => w;
  announce_deployment := fun w => w
|}.

Definition no_env : Env :=
  {| interactive := None;
     _active_gen := None;
     _deployment_name := None;
     _deployment_confs := None |}.

Definition unattended : Env :=
  {| interactive := Some false;
     _active_gen := Some true;
     _deployment_name := None;
     _deployment_confs := None |}.

Definition start (w : World) (e : Env) (answers : list string)
  : Sys nat World :=
  mkSys w e answers [].

Definition plain_conf : NodeConf :=
  {| conf_seed := None; conf_seed_node := None; conf_brain_wrinkles := None |}.

Definition the_deployment : Deployment :=
  {| deployment_name := "prod";
     deployment_ec2 := [];
     deployment_rds := [];
     deployment_elb := [] |}.

Definition deployer_of (name : string) : NodeDeployer :=
  {| klass := Ec2NodeDeployment;
     deployment := the_deployment;
     seed_deployment := None;
     is_active := true;
     aws_type := "ec2";
     node_name := name;
     seed_node_name := None;
     seed_verification := false;
     brain_wrinkles := [];
     conf := plain_conf |}.

Definition no_hooks : @ContribHooks nat World :=
  {| git_validation := ret tt;
     take_temporary_pagerduty := ret tt;
     DT_NOTIFY := false |}.

(** Four nodes, one per bucket: [a] is neither in service nor passing its
    health check, [b] passes but is out of service, [c] is in service and
    failing, [d] is in service and passing. *)
Definition fleet : World :=
  mkWorld [("a", 1); ("b", 2); ("c", 3); ("d", 4)] [3; 4] [2; 4] true.

(** A cloud in which nothing has been created yet. *)
Definition empty_cloud : World := mkWorld [] [] [] true.

(** A cloud whose only node is the one that never comes into service. *)
Definition dead_cloud : World := mkWorld [("z", 0)] [] [] true.

(** Two nodes that pass their health check and are out of service. *)
Definition idle_pair : World :=
  mkWorld [("node-a", 1); ("node-b", 2)] [] [1; 2] true.

(** A cloud with a single node, in service. *)
Definition lone_node : World := mkWorld [("c", 3)] [3] [3] true.

Definition seed_env : Deployment :=
  {| deployment_name := "seed";
     deployment_ec2 := [];
     deployment_rds := [];
     deployment_elb := [] |}.

(** A deployer of a node to be copied from the seed deployment, with seed
    verification asked for. *)
Definition seeded_deployer : NodeDeployer :=
  {| klass := RdsNodeDeployment;
     deployment := the_deployment;
     seed_deployment := Some seed_env;
     is_active := true;
     aws_type := "rds";
     node_name := "db0";
     seed_node_name := Some "seed-db0";
     seed_verification := true;
     brain_wrinkles := [];
     conf := plain_conf |}.

(** A node configuration with the key 'seed' and without the key
    'seed_node'. *)
Definition seed_only_conf : NodeConf :=
  {| conf_seed := Some {| unique_id := Some "seed-web0" |};
     conf_seed_node := None;
     conf_brain_wrinkles := None |}.

Definition one_web_node (node_conf : NodeConf) : EnvironmentConfig :=
  {| ec2 := Some [("web0", node_conf)]; rds := None; elb := None |}.

Definition no_nodes : EnvironmentConfig :=
  {| ec2 := None; rds := None; elb := None |}.

(** An environment "prod" with one EC2 node, and no seed environment. *)
Definition seedless_manager : ConfigurationManager :=
  {| get_environment_config := fun _ => one_web_node plain_conf;
     get_seed_environment_name := fun _ => None |}.

(** The same with a seed environment "seed", the node naming its seed. *)
Definition seeded_manager : ConfigurationManager :=
  {| get_environment_config := fun name =>
       if name =? "prod" then one_web_node seed_only_conf else no_nodes;
     get_seed_environment_name := fun name =>
       if name =? "prod" then Some "seed" else None |}.

(** [env] as [repair] requires it. *)
Definition repair_env : Env :=
  {| interactive := None;
     _active_gen := Some true;
     _deployment_name := Some "prod";
     _deployment_confs :=
       Some {| ec2 := Some []; rds := Some []; elb := Some [] |} |}.

(** A cloud whose deployment state does not verify. *)
Definition broken_cloud : World := mkWorld [("c", 3)] [3] [3] false.

(** A node configuration that names its seed node and asks for its
    verification. *)
Definition seeded_conf : NodeConf :=
  {| conf_seed := Some {| unique_id := Some "seed-web0" |};
     conf_seed_node := Some {| verify := Some true |};
     conf_brain_wrinkles := None |}.

(** An environment "prod" with a seeded EC2 node and a plain RDS node, and
    its seed environment "seed". *)
Definition fully_seeded_manager : ConfigurationManager :=
  {| get_environment_config := fun name =>
       if name =? "prod" then
         {| ec2 := Some [("web0", seeded_conf)];
            rds := Some [("db0", plain_conf)];
            elb := None |}
       else no_nodes;
     get_seed_environment_name := fun name =>
       if name =? "prod" then Some "seed" else None |}.

(** [env] as [repair] requires it, for a generation that is not active. *)
Definition inactive_env : Env :=
  {| interactive := None;
     _active_gen := Some false;
     _deployment_name := Some "prod";
     _deployment_confs :=
       Some {| ec2 := Some []; rds := Some []; elb := Some [] |} |}.

(** The same for the active generation, without the key 'rds' in the
    deployment configurations. *)
Definition no_rds_env : Env :=
  {| interactive := None;
     _active_gen := Some true;
     _deployment_name := Some "prod";
     _deployment_confs :=
       Some {| ec2 := Some []; rds := None; elb := Some [] |} |}.

(** [env] with an empty dict of deployment configurations, for a
    generation that is not active. *)
Definition no_confs_env : Env :=
  {| interactive := None;
     _active_gen := Some false;
     _deployment_name := Some "prod";
     _deployment_confs := Some no_nodes |}.

End Toy.

(** ** A cloud whose nodes take their time

    The state of the cloud is the number of calls of [make_operational]
    that are still needed before the load balancer takes a node into
    service. *)

Module Slow.

#[export] Instance cloud : Cloud nat nat := {|
  node_str := fun n => ("node-" ++ str_of_nat n)%string;
  deployment_str := deployment_name;
  verify_deployment_state := fun _ _ w => (None, w);
  has_required_redundancy := fun _ _ _ => true;
  repair_active_generation := fun _ _ _ w => ([], w);
  active_is_fully_operational := fun _ w => (w =? 0)%nat;
  get_node := fun _ _ => None;
  ensure_node_created := fun _ w => w;
  run := fun _ w => w;
  is_operational := fun _ w => (w =? 0)%nat;
  is_healthy := fun _ _ => true;
  make_temporarily_inoperative := fun _ w => S w;
  make_operational := fun _ w => (None, Nat.pred w);
  get_health_check_url := fun n _ =>
    ("http://node-" ++ str_of_nat n ++ "/health")%string;
  sleep := fun _ w => w;
  announce_deployment := fun w => w
|}.

End Slow.

(** ** Properties *)

Section Properties.

Context {N W : Type} `{Cloud N W}.

#[local] Abbreviation Act := (M N W).

(** *** The trace only grows *)

Lemma traced_nil (s : Sys N W) : traced s [] = s.
Proof.
  destruct s; unfold traced; simpl. now rewrite app_nil_r.
Qed.

Lemma traced_traced (s : Sys N W) (a b : list (Event N)) :
  traced (traced s a) b = traced s (a ++ b).
Proof.
  unfold traced; simpl. now rewrite app_assoc.
Qed.

Lemma emit_run (e : Event N) (s : Sys N W) :
  emit e s = (Returned tt, traced s [e]).
Proof. reflexivity. Qed.

Lemma logger_run (lvl : Level) (msg : string) (args : list string)
  (s : Sys N W) :
  logger lvl msg args s = (Returned tt, traced s [Log lvl msg args]).
Proof. reflexivity. Qed.

(** *** The scheduler *)

Lemma classify_deployer_run (b : Buckets) (dp : NodeDeployer) (s : Sys N W)
  (n : N) :
  get_node dp (world s) = Some n ->
  classify_deployer b dp s =
    (Returned (place b (is_operational n (world s))
                 (is_healthy n (world s)) dp),
     traced s [GetNode dp; IsOperational n; IsHealthy n]).
Proof.
  intros Hnode.
  unfold classify_deployer, call_get_node, bind, emit, read_world; simpl.
  rewrite Hnode; simpl.
  unfold node_is_operational, bind, emit, read_world; simpl.
  destruct (is_operational n (world s)); simpl;
    unfold node_is_healthy, bind, emit, read_world; simpl;
    destruct (is_healthy n (world s)); simpl;
    unfold ret, traced; simpl; rewrite <- !app_assoc; reflexivity.
Qed.

Lemma in_bucket_of_node (w : W) (dp : NodeDeployer) (n : N)
  (operational healthy : bool) :
  get_node dp w = Some n ->
  in_bucket w operational healthy dp
  = Bool.eqb (is_operational n w) operational
    && Bool.eqb (is_healthy n w) healthy.
Proof.
  intros Hnode. unfold in_bucket. now rewrite Hnode.
Qed.

Lemma fill_place (w : W) (b : Buckets) (dp : NodeDeployer) (n : N)
  (ds : list NodeDeployer) :
  get_node dp w = Some n ->
  fill w (place b (is_operational n w) (is_healthy n w) dp) ds
  = fill w b (dp :: ds).
Proof.
  intros Hnode. unfold fill. cbn [filter].
  rewrite !(in_bucket_of_node w dp n _ _ Hnode).
  destruct (is_operational n w), (is_healthy n w); cbn;
    rewrite <- ?app_assoc; reflexivity.
Qed.

Lemma classify_all_run (ds : list NodeDeployer) :
  forall (b : Buckets) (s : Sys N W),
    Forall (node_exists (world s)) ds ->
    exists evs,
      for_fold ds b classify_deployer s
      = (Returned (fill (world s) b ds), traced s evs)
      /\ forallb is_query evs = true.
Proof.
  induction ds as [|dp ds IH]; intros b s Hall.
  - exists []. split; [|reflexivity].
    simpl. unfold ret, fill; simpl. rewrite !app_nil_r, traced_nil.
    now destruct b.
  - inversion Hall as [|? ? Hdp Hrest]; subst.
    unfold node_exists in Hdp.
    destruct (get_node dp (world s)) as [n|] eqn:Hnode; [|congruence].
    simpl. unfold bind at 1. rewrite (classify_deployer_run _ _ _ _ Hnode).
    destruct (IH (place b (is_operational n (world s))
                    (is_healthy n (world s)) dp)
                (traced s [GetNode dp; IsOperational n; IsHealthy n]))
      as (evs & Hrun & Hq); [exact Hrest|].
    exists ([GetNode dp; IsOperational n; IsHealthy n] ++ evs).
    split.
    + rewrite Hrun. simpl world. rewrite (fill_place _ _ _ _ _ Hnode).
      now rewrite traced_traced.
    + simpl. exact Hq.
Qed.

Lemma order_run (ds : list NodeDeployer) (s : Sys N W) :
  Forall (node_exists (world s)) ds ->
  exists evs,
    _order_ec2_deployers_by_priority ds s
    = (Returned (returned_order (world s) ds), traced s evs)
    /\ forallb is_query evs = true.
Proof.
  intros Hall.
  destruct (classify_all_run ds (mkBuckets [] [] [] []) s Hall)
    as (evs & Hrun & Hq).
  exists evs. split; [|exact Hq].
  unfold _order_ec2_deployers_by_priority, bind. rewrite Hrun.
  reflexivity.
Qed.

Lemma in_bucket_no_node (w : W) (dp : NodeDeployer)
  (operational healthy : bool) :
  get_node dp w = None -> in_bucket w operational healthy dp = false.
Proof.
  intros Hnode. unfold in_bucket. now rewrite Hnode.
Qed.

Lemma filter_bucket_bucket (w : W) (o h o' h' : bool)
  (ds : list NodeDeployer) :
  filter (in_bucket w o h) (filter (in_bucket w o' h') ds)
  = if Bool.eqb o o' && Bool.eqb h h'
    then filter (in_bucket w o h) ds
    else [].
Proof.
  destruct o, h, o', h'; cbn [Bool.eqb andb];
    induction ds as [|dp ds IH]; cbn [filter]; try reflexivity;
    (destruct (get_node dp w) as [n|] eqn:Hnode;
     [ rewrite !(in_bucket_of_node w dp n _ _ Hnode);
       destruct (is_operational n w) eqn:Eo, (is_healthy n w) eqn:Eh; cbn;
       rewrite ?(in_bucket_of_node w dp n _ _ Hnode), ?Eo, ?Eh; cbn;
       rewrite ?IH; reflexivity
     | rewrite !(in_bucket_no_node w dp _ _ Hnode); exact IH ]).
Qed.

Lemma returned_order_stable (w : W) (o h : bool) (ds : list NodeDeployer) :
  filter (in_bucket w o h) (returned_order w ds)
  = filter (in_bucket w o h) ds.
Proof.
  unfold returned_order. rewrite !filter_app, !filter_bucket_bucket.
  destruct o, h; simpl; now rewrite ?app_nil_r.
Qed.

Lemma returned_order_permutation (w : W) (ds : list NodeDeployer) :
  Forall (node_exists w) ds -> Permutation ds (returned_order w ds).
Proof.
  induction 1 as [|dp ds Hdp _ IH]; [constructor|].
  unfold node_exists in Hdp.
  destruct (get_node dp w) as [n|] eqn:Hnode; [|congruence].
  unfold returned_order in *. cbn [filter].
  rewrite !(in_bucket_of_node w dp n _ _ Hnode).
  destruct (is_operational n w), (is_healthy n w); cbn.
  - rewrite !app_assoc. apply Permutation_cons_app.
    now rewrite <- !app_assoc.
  - rewrite app_assoc. apply Permutation_cons_app.
    now rewrite <- app_assoc.
  - now constructor.
  - apply Permutation_cons_app. exact IH.
Qed.

(** C8, amended.  On a batch whose deployers all have a node, the
    scheduler returns a permutation of the batch in which the deployers of
    each bucket keep the order they had in the batch, and it leaves the
    cloud as it found it. *)
Theorem order_permutation_stable (ds : list NodeDeployer) (s : Sys N W) :
  Forall (node_exists (world s)) ds ->
  exists out s',
    _order_ec2_deployers_by_priority ds s = (Returned out, s')
    /\ Permutation ds out
    /\ (forall o h,
          filter (in_bucket (world s) o h) out
          = filter (in_bucket (world s) o h) ds)
    /\ world s' = world s
    /\ env s' = env s
    /\ stdin s' = stdin s
    /\ (exists evs, trace s' = trace s ++ evs /\ forallb is_query evs = true).
Proof.
  intros Hall.
  destruct (order_run ds s Hall) as (evs & Hrun & Hq).
  exists (returned_order (world s) ds), (traced s evs).
  split; [exact Hrun|].
  split; [now apply returned_order_permutation|].
  split; [intros o h; apply returned_order_stable|].
  repeat split. exists evs. now split.
Qed.

(** *** The rotation protocol *)

Lemma count_events_app (p : Event N -> bool) (a b : list (Event N)) :
  count_events p (a ++ b) = count_events p a + count_events p b.
Proof.
  unfold count_events. now rewrite filter_app, length_app.
Qed.

Lemma node_prompt_text_format (n : N) :
  py_format "Node %s not made operational. Ignore/Retry/Fail (I/R/F)?"
    [node_str n]
  = inr (node_prompt_text n).
Proof. reflexivity. Qed.

(** *** The known-node loop on a node that stays out of service *)

Lemma make_operational_then {B : Type} (n : N) (k : Act B) (s : Sys N W) :
  (failure <- try_make_operational n ;;
   match failure with
   | Some _ =>
       logger WARNING "Failed to make node %s operational" [node_str n]
   | None => ret tt
   end ;;
   k) s
  = k (mkSys (snd (make_operational n (world s))) (env s) (stdin s)
         (trace s ++ make_operational_events n (world s))).
Proof.
  unfold bind, try_make_operational, bind, emit, logger, emit, ret,
    make_operational_events.
  cbn [world env stdin trace].
  destruct (make_operational n (world s)) as [[e|] w1];
    cbn [fst snd world env stdin trace]; rewrite <- ?app_assoc;
    cbn [app]; rewrite ?app_nil_r; reflexivity.
Qed.

Lemma after_attempts_succ (n : N) (k : nat) (w : W) :
  after_attempts n (S k) w = after_attempts n k (after_attempt n w).
Proof. unfold after_attempts. now rewrite Nat.iter_succ_r. Qed.

Lemma after_attempts_add (n : N) (a b : nat) (w : W) :
  after_attempts n a (after_attempts n b w) = after_attempts n (a + b) w.
Proof. unfold after_attempts. now rewrite Nat.iter_add. Qed.

Lemma down_for_succ (n : N) (k : nat) (w : W) :
  down_for n (S k) w ->
  is_operational n (snd (make_operational n w)) = false
  /\ is_operational n (after_attempt n w) = false
  /\ down_for n k (after_attempt n w).
Proof.
  intros Hdown. split; [|split].
  - exact (proj1 (Hdown 0 (Nat.lt_0_succ k))).
  - exact (proj2 (Hdown 0 (Nat.lt_0_succ k))).
  - intros j Hj. rewrite <- !after_attempts_succ.
    apply Hdown. now apply -> Nat.succ_lt_mono.
Qed.

Lemma down_for_split (n : N) (a b : nat) (w : W) :
  down_for n (a + b) w ->
  down_for n a w /\ down_for n b (after_attempts n a w).
Proof.
  intros Hdown. split; intros j Hj.
  - apply Hdown. lia.
  - rewrite !after_attempts_add. apply (Hdown (j + a)). lia.
Qed.

(** A turn of the known-node loop on which the node stays out of service
    and automatic retries are left. *)
Lemma retry_turn (n : N) (fuel count : nat) (w : W) (e : Env)
  (inp : list string) (tr : list (Event N)) :
  count < auto_retries ->
  is_operational n (snd (make_operational n w)) = false ->
  is_operational n (after_attempt n w) = false ->
  restore_node (S fuel) n count (mkSys w e inp tr)
  = restore_node fuel n (count + 1)
      (mkSys (after_attempt n w) e inp
         (tr ++ attempt_events n w
          ++ [Log INFO "Still not operational. Trying again." []])).
Proof.
  intros Hlt Hfirst Hsecond. apply Nat.ltb_lt in Hlt.
  cbn [restore_node]. rewrite make_operational_then.
  unfold bind at 1, node_is_operational at 1, bind at 1, emit at 1,
    read_world at 1.
  cbn [world env stdin trace]. rewrite Hfirst.
  unfold bind at 1, logger at 1, emit at 1.
  unfold bind at 1, time_sleep, bind at 1, emit at 1, update_world.
  cbn [world env stdin trace].
  unfold bind at 1, node_is_operational at 1, bind at 1, emit at 1,
    read_world at 1.
  cbn [world env stdin trace]. fold (after_attempt n w). rewrite Hsecond, Hlt.
  unfold bind at 1, logger at 1, emit at 1.
  cbn [world env stdin trace].
  unfold attempt_events, make_operational_events.
  match goal with
  | |- restore_node _ _ _ (mkSys _ _ _ ?a)
       = restore_node _ _ _ (mkSys _ _ _ ?b) =>
      replace a with b; [reflexivity|]
  end.
  destruct (fst (make_operational n w)); cbn [app];
    rewrite <- !app_assoc; reflexivity.
Qed.

Lemma retry_phase (n : N) (e : Env) (inp : list string) (k : nat) :
  forall (fuel count : nat) (w : W) (tr : list (Event N)),
    count + k <= auto_retries ->
    down_for n k w ->
    restore_node (k + fuel) n count (mkSys w e inp tr)
    = restore_node fuel n (count + k)
        (mkSys (after_attempts n k w) e inp (tr ++ retry_events n k w)).
Proof.
  induction k as [|k IH]; intros fuel count w tr Hle Hdown.
  - cbn [Nat.add retry_events]. unfold after_attempts. cbn [Nat.iter].
    now rewrite Nat.add_0_r, app_nil_r.
  - apply down_for_succ in Hdown as (Hfirst & Hsecond & Hrest).
    cbn [Nat.add]. rewrite retry_turn by (assumption || lia).
    rewrite IH by (assumption || lia).
    rewrite after_attempts_succ. cbn [retry_events].
    replace (count + 1 + k) with (count + S k) by lia.
    rewrite <- !app_assoc. reflexivity.
Qed.

Lemma retry_events_counts (n : N) (k : nat) :
  forall w : W,
    count_events is_make_operational (retry_events n k w) = k
    /\ count_events is_prompt (retry_events n k w) = 0
    /\ count_events is_sleep (retry_events n k w) = k.
Proof.
  induction k as [|k IH]; intros w; [now repeat split|].
  cbn [retry_events]. rewrite !count_events_app.
  destruct (IH (after_attempt n w)) as (-> & -> & ->).
  unfold attempt_events.
  destruct (fst (make_operational n w)); repeat split; cbn; lia.
Qed.

(** The turn on which the automatic retries are used up and the node is
    still out of service, by the answer the operator gives to the
    prompt. *)
Lemma prompt_turn (n : N) (fuel count : nat) (w : W) (e : Env)
  (answer : string) (inp : list string) (tr : list (Event N)) :
  auto_retries <= count ->
  is_operational n (snd (make_operational n w)) = false ->
  is_operational n (after_attempt n w) = false ->
  py_in answer ["I"; "R"; "F"] = true ->
  restore_node (S fuel) n count (mkSys w e (answer :: inp) tr)
  = let s' :=
      mkSys (after_attempt n w) e inp
        (tr ++ escalated_turn n w ++ [Prompted (node_prompt_text n)]) in
    if answer =? "R" then restore_node fuel n count s'
    else if answer =? "I" then (Returned tt, s')
    else
      (Exited 1,
       traced s'
         [Log CRITICAL "Node %s not healthy. Aborting deployment"
            [node_str n]]).
Proof.
  intros Hge Hfirst Hsecond Hopt. apply Nat.ltb_ge in Hge.
  cbn [restore_node]. rewrite make_operational_then.
  unfold bind at 1, node_is_operational at 1, bind at 1, emit at 1,
    read_world at 1.
  cbn [world env stdin trace]. rewrite Hfirst.
  unfold bind at 1, logger at 1, emit at 1.
  unfold bind at 1, time_sleep, bind at 1, emit at 1, update_world.
  cbn [world env stdin trace].
  unfold bind at 1, node_is_operational at 1, bind at 1, emit at 1,
    read_world at 1.
  cbn [world env stdin trace]. fold (after_attempt n w). rewrite Hsecond, Hge.
  unfold bind at 1, logger at 1, emit at 1.
  cbn [world env stdin trace].
  unfold bind at 1, call_get_health_check_url, bind at 1, emit at 1,
    read_world.
  cbn [world env stdin trace].
  unfold bind at 1, logger at 1, emit at 1.
  cbn [world env stdin trace].
  rewrite node_prompt_text_format.
  unfold bind at 1, prompt_until_in.
  cbn [world env stdin trace ask_from]. rewrite Hopt.
  cbv zeta.
  destruct (answer =? "R") eqn:HR; [|destruct (answer =? "I") eqn:HI;
    [|destruct (answer =? "F") eqn:HF]].
  - match goal with
    | |- restore_node _ _ _ (mkSys _ _ _ ?a)
         = restore_node _ _ _ (mkSys _ _ _ ?b) =>
        replace a with b; [reflexivity|]
    end.
    unfold escalated_turn, attempt_events, escalation_report,
      make_operational_events.
    destruct (fst (make_operational n w)); cbn [app];
      rewrite <- !app_assoc; reflexivity.
  - unfold ret.
    match goal with
    | |- (_, mkSys _ _ _ ?a) = (_, mkSys _ _ _ ?b) =>
        replace a with b; [reflexivity|]
    end.
    unfold escalated_turn, attempt_events, escalation_report,
      make_operational_events.
    destruct (fst (make_operational n w)); cbn [app];
      rewrite <- !app_assoc; reflexivity.
  - unfold bind, logger, emit, exit, traced.
    cbn [world env stdin trace].
    match goal with
    | |- (_, mkSys _ _ _ ?a) = (_, mkSys _ _ _ ?b) =>
        replace a with b; [reflexivity|]
    end.
    unfold escalated_turn, attempt_events, escalation_report,
      make_operational_events.
    destruct (fst (make_operational n w)); cbn [app];
      rewrite <- !app_assoc; reflexivity.
  - unfold py_in in Hopt. cbn in Hopt. rewrite HR, HI, HF in Hopt.
    discriminate.
Qed.

Lemma escalated_turn_counts (n : N) (w : W) :
  one_full_attempt (escalated_turn n w).
Proof.
  unfold one_full_attempt, escalated_turn, attempt_events.
  destruct (fst (make_operational n w)); repeat split; reflexivity.
Qed.

Lemma retried_turns_counts (n : N) (k : nat) :
  forall w : W,
    List.length (retried_turns n k w) = k
    /\ Forall one_full_attempt (retried_turns n k w).
Proof.
  induction k as [|k IH]; intros w; cbn [retried_turns List.length].
  - split; [reflexivity|constructor].
  - destruct (IH (after_attempt n w)) as [Hlen Hall]. split.
    + now rewrite Hlen.
    + constructor; [apply escalated_turn_counts|exact Hall].
Qed.

Lemma prompted_turns_counts (text : string) (turns : list (list (Event N))) :
  Forall one_full_attempt turns ->
  count_events is_make_operational (prompted_turns text turns)
  = List.length turns
  /\ count_events is_prompt (prompted_turns text turns) = List.length turns.
Proof.
  induction 1 as [|turn turns (Hmk & _ & _ & Hpr) _ [IHmk IHpr]];
    [split; reflexivity|].
  unfold prompted_turns in *. cbn [map List.concat List.length].
  rewrite !count_events_app, IHmk, IHpr, Hmk, Hpr. cbn. split; lia.
Qed.

(** The loop from the turn on which the automatic retries are used up,
    when the operator answers Retry [k] times and then [final]. *)
Lemma retried_phase (n : N) (e : Env) (final : string) (rest : list string)
  (k : nat) :
  final = "I" \/ final = "F" ->
  forall (fuel : nat) (w : W) (tr : list (Event N)),
    down_for n (S k) w ->
    restore_node (S k + fuel) n auto_retries
      (mkSys w e (repeat "R" k ++ final :: rest) tr)
    = (final_outcome final,
       mkSys (after_attempts n (S k) w) e rest
         (tr ++ escalated_turn n w ++ [Prompted (node_prompt_text n)]
          ++ prompted_turns (node_prompt_text n)
               (retried_turns n k (after_attempt n w))
          ++ closing_events n final)).
Proof.
  intros Hfinal.
  induction k as [|k IH]; intros fuel w tr Hdown;
    apply down_for_succ in Hdown as (Hfirst & Hsecond & Hrest).
  - cbn [repeat app Nat.add retried_turns].
    rewrite prompt_turn;
      [|apply Nat.le_refl|assumption|assumption
       |destruct Hfinal; subst; reflexivity].
    destruct Hfinal; subst;
      unfold final_outcome, closing_events, prompted_turns, traced,
        after_attempts;
      cbn [String.eqb Ascii.eqb Bool.eqb map List.concat Nat.iter
           world env stdin trace];
      (match goal with
       | |- (_, mkSys _ _ _ ?a) = (_, mkSys _ _ _ ?b) =>
           replace a with b; [reflexivity|]
       end);
      rewrite <- ?app_assoc; cbn [app]; rewrite ?app_nil_r; reflexivity.
  - cbn [repeat app Nat.add].
    rewrite prompt_turn;
      [|apply Nat.le_refl|assumption|assumption|reflexivity].
    cbn [String.eqb Ascii.eqb Bool.eqb].
    change (S (k + fuel)) with (S k + fuel). rewrite IH by exact Hrest.
    rewrite <- after_attempts_succ.
    cbn [retried_turns]. unfold prompted_turns. cbn [map List.concat].
    rewrite <- !app_assoc. reflexivity.
Qed.

Lemma bounded_phase_counts (n : N) (w : W) :
  count_events is_make_operational (bounded_phase n w) = 11
  /\ count_events is_prompt (bounded_phase n w) = 0.
Proof.
  unfold bounded_phase.
  change (Log INFO "Restoring operation: %s" [node_str n]
          :: retry_events n auto_retries w
          ++ escalated_turn n (after_attempts n auto_retries w))
    with ([Log INFO "Restoring operation: %s" [node_str n]]
          ++ retry_events n auto_retries w
          ++ escalated_turn n (after_attempts n auto_retries w)).
  rewrite !count_events_app.
  destruct (retry_events_counts n auto_retries w) as (-> & -> & _).
  destruct (escalated_turn_counts n (after_attempts n auto_retries w))
    as (-> & _ & _ & ->).
  split; reflexivity.
Qed.

(** The restoration phase on a node that stays out of service for
    [11 + k] turns, when the operator answers Retry [k] times and then
    [final]. *)
Lemma restore_down_node (n : N) (d : Deployment) (e : Env) (final : string)
  (rest : list string) (k fuel : nat) (w : W) (tr : list (Event N)) :
  final = "I" \/ final = "F" ->
  11 + k <= fuel ->
  down_for n (11 + k) w ->
  restore_operation fuel (Some n) d true
    (mkSys w e (repeat "R" k ++ final :: rest) tr)
  = (final_outcome final,
     mkSys (after_attempts n (11 + k) w) e rest
       (tr ++ bounded_phase n w ++ [Prompted (node_prompt_text n)]
        ++ prompted_turns (node_prompt_text n)
             (retried_turns n k (after_attempts n 11 w))
        ++ closing_events n final)).
Proof.
  intros Hfinal Hfuel Hdown.
  replace (11 + k) with (auto_retries + S k) in Hdown
    by (unfold auto_retries; lia).
  apply down_for_split in Hdown as [Hauto Hmanual].
  replace fuel with (auto_retries + (S k + (fuel - 11 - k)))
    by (unfold auto_retries; lia).
  unfold restore_operation, bind, logger, emit.
  cbn [py_str world env stdin trace].
  rewrite retry_phase by (assumption || apply Nat.le_refl).
  change (0 + auto_retries) with auto_retries.
  rewrite (retried_phase n e final rest k Hfinal) by exact Hmanual.
  rewrite after_attempts_add.
  replace (S k + auto_retries) with (11 + k) by (unfold auto_retries; lia).
  change (after_attempt n (after_attempts n auto_retries w))
    with (after_attempts n 11 w).
  unfold bounded_phase.
  match goal with
  | |- (_, mkSys _ _ _ ?a) = (_, mkSys _ _ _ ?b) =>
      replace a with b; [reflexivity|]
  end.
  cbn [app]. rewrite <- !app_assoc. cbn [app]. reflexivity.
Qed.

(** C4.  Single-node mode, on a node that is out of service at every test
    of the first eleven turns of the loop: the first prompt comes after
    exactly 11 [make_operational] attempts; on the answer "I" the
    restoration returns, the node still out of service, and on the answer
    "F" the process exits with status 1. *)
Theorem restore_prompts_after_eleven_attempts (n : N) (d : Deployment)
  (e : Env) (rest : list string) (fuel : nat) (w : W)
  (tr : list (Event N)) :
  11 <= fuel ->
  down_for n 11 w ->
  count_events is_make_operational (bounded_phase n w) = 11
  /\ count_events is_prompt (bounded_phase n w) = 0
  /\ is_operational n (after_attempts n 11 w) = false
  /\ restore_operation fuel (Some n) d true (mkSys w e ("I" :: rest) tr)
     = (Returned tt,
        mkSys (after_attempts n 11 w) e rest
          (tr ++ bounded_phase n w ++ [Prompted (node_prompt_text n)]))
  /\ restore_operation fuel (Some n) d true (mkSys w e ("F" :: rest) tr)
     = (Exited 1,
        mkSys (after_attempts n 11 w) e rest
          (tr ++ bounded_phase n w
           ++ [Prompted (node_prompt_text n);
               Log CRITICAL "Node %s not healthy. Aborting deployment"
                 [node_str n]])).
Proof.
  intros Hfuel Hdown.
  destruct (bounded_phase_counts n w) as [Hmk Hpr].
  split; [exact Hmk|]. split; [exact Hpr|].
  split; [exact (proj2 (Hdown 10 ltac:(lia)))|].
  split.
  - pose proof (restore_down_node n d e "I" rest 0 fuel w tr
                  (or_introl eq_refl) Hfuel Hdown) as Hrun.
    unfold final_outcome, closing_events, prompted_turns in Hrun.
    cbn [String.eqb Ascii.eqb Bool.eqb retried_turns map List.concat
         Nat.add repeat app] in Hrun.
    rewrite Hrun. reflexivity.
  - pose proof (restore_down_node n d e "F" rest 0 fuel w tr
                  (or_intror eq_refl) Hfuel Hdown) as Hrun.
    unfold final_outcome, closing_events, prompted_turns in Hrun.
    cbn [String.eqb Ascii.eqb Bool.eqb retried_turns map List.concat
         Nat.add repeat app] in Hrun.
    rewrite Hrun. reflexivity.
Qed.

(** C9.  Single-node mode, on a node that is out of service at every test
    of the first [11 + k] turns of the loop, the operator answering "R"
    [k] times and then "I" or "F": each answer "R" is followed by exactly
    one more [make_operational] attempt, with its wait and its second
    test of the node, and then by the prompt again; the automatic retries
    do not start over.  So there are [11 + k] attempts and [k + 1] prompts
    in all. *)
Theorem retry_does_not_reset_count (n : N) (d : Deployment) (e : Env)
  (final : string) (rest : list string) (k fuel : nat) (w : W)
  (tr : list (Event N)) :
  final = "I" \/ final = "F" ->
  11 + k <= fuel ->
  down_for n (11 + k) w ->
  let text := node_prompt_text n in
  let retries := retried_turns n k (after_attempts n 11 w) in
  let evs :=
    bounded_phase n w ++ [Prompted text] ++ prompted_turns text retries
    ++ closing_events n final in
  restore_operation fuel (Some n) d true
    (mkSys w e (repeat "R" k ++ final :: rest) tr)
  = (final_outcome final,
     mkSys (after_attempts n (11 + k) w) e rest (tr ++ evs))
  /\ count_events is_make_operational (bounded_phase n w) = 11
  /\ count_events is_prompt (bounded_phase n w) = 0
  /\ List.length retries = k
  /\ Forall one_full_attempt retries
  /\ count_events is_make_operational evs = 11 + k
  /\ count_events is_prompt evs = k + 1.
Proof.
  intros Hfinal Hfuel Hdown text retries evs. subst text retries evs.
  destruct (bounded_phase_counts n w) as [Hmk Hpr].
  destruct (retried_turns_counts n k (after_attempts n 11 w))
    as [Hlen Hall].
  destruct (prompted_turns_counts (node_prompt_text n) _ Hall)
    as [Hmks Hprs].
  split; [now apply restore_down_node|].
  split; [exact Hmk|]. split; [exact Hpr|]. split; [exact Hlen|].
  split; [exact Hall|].
  rewrite !count_events_app, Hmk, Hpr, Hmks, Hprs, Hlen.
  destruct Hfinal; subst; cbn; split; lia.
Qed.

(** C6.  With a node, [force_seamless] set, the redundancy missing and the
    run not interactive, [seamless_modification] exits with status 1
    whatever the block of the [with] statement is: the block is not run,
    the cloud is as it was, and the trace has the redundancy query and the
    two critical log lines, nothing else. *)
Theorem seamless_aborts_when_unattended (fuel : nat) (n : N)
  (d : Deployment) (make_operational_if_not_already : bool)
  (body : Act unit) (s : Sys N W) :
  has_required_redundancy d n (world s) = false ->
  interactive (env s) = Some false ->
  seamless_modification fuel (Some n) d true make_operational_if_not_already
    body s
  = (Exited 1,
     traced s
       [HasRequiredRedundancy d n;
        Log CRITICAL "Not possible to avoid service interruption to node %s"
          [node_str n];
        Log CRITICAL "Deployment marked non-interactive. Aborting." []]).
Proof.
  intros Hred Hint.
  unfold seamless_modification, check_redundancy, bind,
    call_has_required_redundancy, bind, emit, read_world, read_env, logger,
    emit, exit, traced.
  cbn [world env stdin trace]. rewrite Hred.
  cbn [negb world env stdin trace]. rewrite Hint.
  cbn [world env stdin trace]. rewrite <- !app_assoc. reflexivity.
Qed.

(** C5, what the code does.  In generation mode, when the active
    generation is not fully operational after the repair, building the
    prompt text raises [TypeError]: the format string has no conversion
    and is given the node, [None].  The operator is not prompted. *)
Theorem generation_prompt_raises (fuel : nat) (d : Deployment)
  (s : Sys N W) :
  active_is_fully_operational d
    (snd (repair_active_generation d true (Some false) (world s))) = false ->
  restore_operation (S fuel) None d true s
  = (Raised
       (TypeError "not all arguments converted during string formatting"),
     mkSys (snd (repair_active_generation d true (Some false) (world s)))
       (env s) (stdin s)
       (trace s
        ++ [Log INFO "Restoring operation: %s" ["None"];
            RepairActiveGeneration d true (Some false);
            ActiveIsFullyOperational d])).
Proof.
  intros Hnot.
  unfold restore_operation, bind, logger, emit.
  cbn [py_str world env stdin trace restore_generation].
  unfold bind, call_repair_active_generation, call_active_is_fully_operational,
    bind, emit, read_world.
  cbn [world env stdin trace].
  destruct (repair_active_generation d true (Some false) (world s))
    as [activated w'] eqn:Hrepair.
  cbn [snd world env stdin trace] in *. rewrite Hnot.
  unfold prompt_until_in. cbn [py_str].
  rewrite <- !app_assoc. reflexivity.
Qed.

(** *** The seed verification gate *)

Lemma seed_prompt_text_format (dp : NodeDeployer) :
  py_format
    "Requiring seed data verification. Node %s-%s WILL be affected Continue? (%s)?"
    [py_str deployment_str (seed_deployment dp);
     py_str (fun x => x) (seed_node_name dp);
     join "/" ["Yes"; "No"]]
  = inr (seed_prompt_text dp).
Proof.
  unfold seed_prompt_text.
  generalize (py_str deployment_str (seed_deployment dp)) as a.
  generalize (py_str (fun x : string => x) (seed_node_name dp)) as b.
  intros b a. cbn. reflexivity.
Qed.

Lemma ask_from_skips (opts : list string) (text answer : string)
  (rest : list string) (junk : list string) :
  Forall (fun a => py_in a opts = false) junk ->
  py_in answer opts = true ->
  forall shown : list (Event N),
    ask_from opts text (junk ++ answer :: rest) shown
    = (Some answer, rest,
       shown ++ repeat (Prompted text) (S (List.length junk))).
Proof.
  intros Hjunk Hanswer.
  induction Hjunk as [|a junk Ha _ IH]; intros shown; cbn [app ask_from].
  - now rewrite Hanswer.
  - rewrite Ha, IH. cbn [List.length repeat].
    rewrite <- app_assoc. reflexivity.
Qed.

Lemma for_each_app {A : Type} (xs ys : list A) (body : A -> Act unit)
  (s s1 : Sys N W) :
  for_each xs body s = (Returned tt, s1) ->
  for_each (xs ++ ys) body s = for_each ys body s1.
Proof.
  revert s. induction xs as [|x xs IH]; intros s Hrun; cbn in *.
  - unfold ret in Hrun. now inversion Hrun.
  - unfold bind in *. destruct (body x s) as [[[]| | | |] s'];
      try discriminate. now apply IH.
Qed.

Lemma seed_gate_run (dp : NodeDeployer) (answer : string)
  (junk rest : list string) (w : W) (e : Env) (tr : list (Event N)) :
  Forall not_yes_no junk ->
  py_in answer ["Yes"; "No"] = true ->
  _prompt_for_seed_verification dp (mkSys w e (junk ++ answer :: rest) tr)
  = let asked :=
      tr ++ repeat (Prompted (seed_prompt_text dp)) (S (List.length junk)) in
    if negb (answer =? "Yes") then
      (Exited 1,
       mkSys w e rest
         (asked
          ++ [Log CRITICAL "Node %s-%s would be affected. Aborting deployment"
                [py_str deployment_str (seed_deployment dp);
                 py_str (fun x => x) (seed_node_name dp)]]))
    else (Returned tt, mkSys w e rest asked).
Proof.
  intros Hjunk Hanswer.
  unfold _prompt_for_seed_verification, bind, prompt_until_in.
  rewrite seed_prompt_text_format. cbn [world env stdin trace].
  rewrite (ask_from_skips _ _ _ _ _ Hjunk Hanswer).
  cbv zeta. destruct (negb (answer =? "Yes")); reflexivity.
Qed.

(** C7.  In a batch that is being provisioned, take a deployer with
    [seed_verification] set whose node does not exist when its turn comes.
    The operator is prompted before [ensure_node_created]; answers other
    than "Yes" and "No" are asked again; on "No" the process exits with
    status 1 and [ensure_node_created] has not been called for the
    deployer; on "Yes" [ensure_node_created] is called next. *)
Theorem seed_gate_precedes_creation (before after : list NodeDeployer)
  (dp : NodeDeployer) (s : Sys N W) (w : W) (e : Env)
  (junk rest : list string) (tr : list (Event N)) :
  seed_verification dp = true ->
  get_node dp w = None ->
  Forall not_yes_no junk ->
  (provision_nodes before s
   = (Returned tt, mkSys w e (junk ++ "No" :: rest) tr) ->
   provision_nodes (before ++ dp :: after) s
   = (Exited 1,
      mkSys w e rest
        (tr ++ [GetNode dp]
         ++ repeat (Prompted (seed_prompt_text dp)) (S (List.length junk))
         ++ [Log CRITICAL "Node %s-%s would be affected. Aborting deployment"
               [py_str deployment_str (seed_deployment dp);
                py_str (fun x => x) (seed_node_name dp)]])))
  /\ (provision_nodes before s
      = (Returned tt, mkSys w e (junk ++ "Yes" :: rest) tr) ->
      provision_nodes (before ++ dp :: after) s
      = provision_nodes after
          (mkSys (ensure_node_created dp w) e rest
             (tr ++ [GetNode dp]
              ++ repeat (Prompted (seed_prompt_text dp))
                   (S (List.length junk))
              ++ [EnsureNodeCreated dp]))).
Proof.
  intros Hseed Hnode Hjunk. split; intros Hbefore;
    unfold provision_nodes in *;
    rewrite (for_each_app _ _ _ _ _ Hbefore);
    cbn [for_each]; unfold bind at 1, provision_node, bind at 1;
    rewrite Hseed; unfold bind at 1, call_get_node, bind, emit, read_world;
    cbn [world env stdin trace]; rewrite Hnode;
    rewrite seed_gate_run by (assumption || reflexivity);
    cbn [String.eqb Ascii.eqb Bool.eqb negb];
    unfold call_ensure_node_created, bind, emit, update_world;
    cbn [world env stdin trace]; rewrite <- ?app_assoc; reflexivity.
Qed.

(** *** [repair] *)

(** C10.  Once [env] has what [repair] requires and
    [verify_deployment_state] has succeeded, [repair] calls
    [repair_active_generation] with [force_operational = (force == 'y')],
    logs "No nodes modified" when no node was activated and "Succesfully
    made %s node(s) operational" with their number otherwise, and
    returns. *)
Theorem repair_reports_activated_nodes (force name : string)
  (confs : EnvironmentConfig) (ec2_confs rds_confs elb_confs : NodeConfs)
  (s : Sys N W) :
  let d :=
    {| deployment_name := name;
       deployment_ec2 := ec2_confs;
       deployment_rds := rds_confs;
       deployment_elb := elb_confs |} in
  let verified := verify_deployment_state d None (world s) in
  let repaired :=
    repair_active_generation d (force =? "y") None (snd verified) in
  _deployment_name (env s) = Some name ->
  _deployment_confs (env s) = Some confs ->
  _active_gen (env s) = Some true ->
  ec2 confs = Some ec2_confs ->
  rds confs = Some rds_confs ->
  elb confs = Some elb_confs ->
  fst verified = None ->
  repair force s
  = (Returned tt,
     mkSys (snd repaired) (env s) (stdin s)
       (trace s
        ++ [VerifyDeploymentState d None;
            RepairActiveGeneration d (force =? "y") None;
            repair_report (fst repaired)])).
Proof.
  intros d verified repaired Hname Hconfs Hactive Hec2 Hrds Helb Hok.
  subst verified repaired.
  assert (Hsome : confs_empty confs = false)
    by (unfold confs_empty; now rewrite Hec2).
  unfold repair, require, bind, read_env, assert, dict_item,
    call_verify_deployment_state, call_repair_active_generation, logger,
    bind, emit, ret.
  cbn [world env stdin trace]. rewrite Hname.
  cbn [world env stdin trace]. rewrite Hconfs.
  cbn [world env stdin trace]. rewrite Hsome.
  cbn [world env stdin trace]. rewrite Hactive.
  cbn [world env stdin trace]. rewrite Hec2, Hrds, Helb.
  cbn [world env stdin trace]. fold d.
  destruct (verify_deployment_state d None (world s)) as [failure w1].
  cbn [fst snd] in *. subst failure.
  cbn [world env stdin trace].
  destruct (repair_active_generation d (force =? "y") None w1)
    as [activated w2].
  cbn [fst snd world env stdin trace].
  destruct activated; cbn [List.length Nat.ltb Nat.leb repair_report];
    cbn [world env stdin trace]; rewrite <- !app_assoc; reflexivity.
Qed.

(** *** [up] *)

Lemma only_verified_trans (w1 w2 w3 : W) :
  only_verified w1 w2 -> only_verified w2 w3 -> only_verified w1 w3.
Proof.
  intros H12 H23. induction H23; [assumption|].
  constructor. now apply IHonly_verified.
Qed.

Lemma gathers_only_still {A : Type} (o : Outcome A) :
  gathers_only (fun s => (o, s)).
Proof.
  intros s. cbn. repeat split; [|constructor].
  exists []. now rewrite app_nil_r.
Qed.

Lemma gathers_only_bind {A B : Type} (m : Act A) (k : A -> Act B) :
  gathers_only m -> (forall a, gathers_only (k a)) ->
  gathers_only (bind m k).
Proof.
  intros Hm Hk s. unfold bind.
  destruct (Hm s) as ((evs & Htr & Hq) & Hin & Hw).
  destruct (m s) as [o s1]. cbn [snd] in *.
  destruct o as [a| | | |]; cbn [snd];
    try (split; [exists evs; split; assumption|split; assumption]).
  destruct (Hk a s1) as ((evs' & Htr' & Hq') & Hin' & Hw').
  split; [|split].
  - exists (evs ++ evs'). rewrite Htr', Htr, app_assoc, forallb_app, Hq, Hq'.
    split; reflexivity.
  - now rewrite Hin'.
  - eapply only_verified_trans; eassumption.
Qed.

Lemma gathers_only_logger (lvl : Level) (msg : string) (args : list string) :
  gathers_only (logger (N := N) (W := W) lvl msg args).
Proof.
  intros s. cbn. repeat split; [|constructor].
  exists [Log lvl msg args]. split; reflexivity.
Qed.

Lemma gathers_only_read_env {A : Type} (f : Env -> A) :
  gathers_only (read_env (N := N) (W := W) f).
Proof.
  intros s. cbn. repeat split; [|constructor].
  exists []. now rewrite app_nil_r.
Qed.

Lemma gathers_only_update_env (f : Env -> Env) :
  gathers_only (update_env (N := N) (W := W) f).
Proof.
  intros s. cbn. repeat split; [|constructor].
  exists []. now rewrite app_nil_r.
Qed.

Lemma gathers_only_verify (d : Deployment) (verify_old : option bool) :
  gathers_only (call_verify_deployment_state d verify_old).
Proof.
  intros s.
  unfold call_verify_deployment_state, bind, emit, raise, ret.
  cbn [world env stdin trace].
  pose proof (only_verified_step (world s) (world s) d verify_old
                (only_verified_refl _)) as Hw.
  destruct (verify_deployment_state d verify_old (world s))
    as [[e|] w1]; cbn [snd world env stdin trace] in *;
    (split; [exists [VerifyDeploymentState d verify_old]; split; reflexivity
            |split; [reflexivity|exact Hw]]).
Qed.

Lemma gathers_only_dict_item {A : Type} (key : string) (value : option A) :
  gathers_only (dict_item (N := N) (W := W) key value).
Proof.
  destruct value; [apply (gathers_only_still (Returned _))
                  |apply (gathers_only_still (Raised _))].
Qed.

Lemma gathers_only_for_fold {A B : Type} (xs : list A)
  (body : B -> A -> Act B) :
  (forall acc x, gathers_only (body acc x)) ->
  forall acc, gathers_only (for_fold xs acc body).
Proof.
  intros Hbody. induction xs as [|x xs IH]; intros acc; cbn [for_fold].
  - apply (gathers_only_still (Returned _)).
  - apply gathers_only_bind; [apply Hbody|intros acc'; apply IH].
Qed.

Ltac gathers :=
  repeat match goal with
    | |- forall _, _ => intro
    | |- gathers_only (call_verify_deployment_state _ _) =>
        apply gathers_only_verify
    | |- gathers_only (logger _ _ _) => apply gathers_only_logger
    | |- gathers_only (read_env _) => apply gathers_only_read_env
    | |- gathers_only (update_env _) => apply gathers_only_update_env
    | |- gathers_only (dict_item _ _) => apply gathers_only_dict_item
    | |- gathers_only (for_fold _ _ _) => apply gathers_only_for_fold
    | |- gathers_only (bind _ _) => apply gathers_only_bind
    | |- gathers_only (ret _) => apply (gathers_only_still (Returned _))
    | |- gathers_only (raise _) => apply (gathers_only_still (Raised _))
    | |- gathers_only (match ?x with _ => _ end) => destruct x
    end.

Lemma gathers_only_build_deployer (d : Deployment)
  (seed_deployment : option Deployment) (aws_type : string)
  (deployers : list NodeDeployer * list NodeDeployer)
  (item : string * NodeConf) :
  gathers_only (build_deployer d seed_deployment aws_type deployers item).
Proof.
  unfold build_deployer. destruct deployers, item. gathers.
Qed.

Lemma gathers_only_up_build (hooks : ContribHooks) (environment_name : string)
  (configuration_manager : ConfigurationManager) :
  gathers_only (up_build hooks environment_name configuration_manager).
Proof.
  unfold up_build, pre_deploy_validation, gather_deployment_state,
    gather_seed_deployment_state, build_deployers.
  cbn [dict_get_flag]. gathers. apply gathers_only_build_deployer.
Qed.

Lemma gathers_only_up (fuel : nat) (hooks : ContribHooks)
  (environment_name : string) (configuration_manager : ConfigurationManager)
  (resource_tracker : unit) (generation : Generation) :
  gathers_only
    (up fuel hooks environment_name configuration_manager resource_tracker
       generation).
Proof.
  unfold up. apply gathers_only_bind; [apply gathers_only_up_build|].
  intros [ec2_deployers rds_deployers].
  exact (gathers_only_still (Raised AssertionError)).
Qed.

(** C2, amended.  An invocation of [up] whose deployer-building phase
    runs to its end raises [AssertionError] there, in the state the phase
    left.  No invocation of [up] returns, and whatever way it ends it has
    only logged and verified deployment states: no prompt was shown and no
    input read (no seed verification gate), no deployer was asked for its
    node, created or run (no provisioning, no scheduler), no node was
    rotated or repaired. *)
Theorem up_stops_at_assert (fuel : nat) (hooks : ContribHooks)
  (environment_name : string) (configuration_manager : ConfigurationManager)
  (resource_tracker : unit) (generation : Generation) (s : Sys N W) :
  let ran :=
    up fuel hooks environment_name configuration_manager resource_tracker
      generation s in
  (forall deployers s1,
      up_build hooks environment_name configuration_manager s
      = (Returned deployers, s1) ->
      ran = (Raised AssertionError, s1))
  /\ (forall v, fst ran <> Returned v)
  /\ (exists evs,
         trace (snd ran) = trace s ++ evs /\ forallb is_gathering evs = true)
  /\ stdin (snd ran) = stdin s
  /\ only_verified (world s) (world (snd ran)).
Proof.
  intros ran. split; [|split].
  - intros [ec2_deployers rds_deployers] s1 Hbuild.
    subst ran. unfold up, bind at 1. rewrite Hbuild. reflexivity.
  - intros v. subst ran. unfold up, bind at 1.
    destruct (up_build hooks environment_name configuration_manager s)
      as [[[ec2_deployers rds_deployers]| | | |] s1]; cbn; discriminate.
  - exact (gathers_only_up fuel hooks environment_name configuration_manager
             resource_tracker generation s).
Qed.

Lemma build_section_run (d : Deployment) (type : string) (active : bool)
  (node_confs : NodeConfs) :
  type = "ec2" \/ type = "rds" ->
  forall (ec2_deployers rds_deployers : list NodeDeployer) (s : Sys N W),
    _active_gen (env s) = Some active ->
    for_fold node_confs (ec2_deployers, rds_deployers)
      (build_deployer d None type) s
    = (Returned
         (if type =? "ec2"
          then (ec2_deployers
                ++ map (seedless_deployer d Ec2NodeDeployment "ec2" active)
                     node_confs,
                rds_deployers)
          else (ec2_deployers,
                rds_deployers
                ++ map (seedless_deployer d RdsNodeDeployment "rds" active)
                     node_confs)),
       traced s
         (repeat (Log INFO "No seed node configured" [])
            (List.length node_confs))).
Proof.
  intros Htype.
  induction node_confs as [|[name node_conf] node_confs IH];
    intros ec2_deployers rds_deployers s Hactive.
  - cbn [for_fold map List.length repeat]. rewrite traced_nil, !app_nil_r.
    unfold ret. now destruct (type =? "ec2").
  - cbn [for_fold]. unfold bind at 1.
    assert (Hstep :
      build_deployer d None type (ec2_deployers, rds_deployers)
        (name, node_conf) s
      = (Returned
           (if type =? "ec2"
            then (ec2_deployers
                  ++ [seedless_deployer d Ec2NodeDeployment "ec2" active
                        (name, node_conf)],
                  rds_deployers)
            else (ec2_deployers,
                  rds_deployers
                  ++ [seedless_deployer d RdsNodeDeployment "rds" active
                        (name, node_conf)])),
         traced s [Log INFO "No seed node configured" []])).
    { destruct Htype; subst type;
        unfold build_deployer, bind, logger, emit, read_env, ret;
        cbn [world env stdin trace String.eqb Ascii.eqb Bool.eqb];
        rewrite Hactive; reflexivity. }
    rewrite Hstep.
    destruct Htype; subst type; cbn [String.eqb Ascii.eqb Bool.eqb];
      rewrite IH by assumption; cbn [String.eqb Ascii.eqb Bool.eqb];
      rewrite traced_traced; cbn [map List.length repeat app];
      rewrite <- app_assoc; reflexivity.
Qed.

(** C3, what the code does.  Without a seed deployment, the deployers that
    [up] puts in [ec2_deployers] are [Ec2NodeDeployment]s of the nodes of
    the 'rds' section, and those it puts in [rds_deployers] are
    [RdsNodeDeployment]s of the nodes of the 'ec2' section: each section is
    paired with the type of the other. *)
Theorem build_pairs_section_with_other_type
  (environment_config : EnvironmentConfig) (d : Deployment) (active : bool)
  (s : Sys N W) :
  _active_gen (env s) = Some active ->
  fst (build_deployers environment_config d None s)
  = Returned
      (map (seedless_deployer d Ec2NodeDeployment "ec2" active)
         (get_or_empty (rds environment_config)),
       map (seedless_deployer d RdsNodeDeployment "rds" active)
         (get_or_empty (ec2 environment_config))).
Proof.
  intros Hactive.
  unfold build_deployers, bind at 1, logger, emit.
  cbn [for_fold]. unfold bind at 1.
  rewrite (build_section_run d "rds" active _ (or_intror eq_refl))
    by exact Hactive.
  cbn [String.eqb Ascii.eqb Bool.eqb]. unfold bind at 1.
  rewrite (build_section_run d "ec2" active _ (or_introl eq_refl))
    by exact Hactive.
  reflexivity.
Qed.

End Properties.

(** ** Runs on the small cloud *)

Module Runs.

Import Toy.

(** C1, the scheduler at work.  [a] is inoperative and unhealthy, [b]
    inoperative and healthy: the docstring puts [a] first, the function
    returns [b] first. *)
Theorem order_puts_inoperative_healthy_first :
  fst (_order_ec2_deployers_by_priority
         [deployer_of "a"; deployer_of "b"; deployer_of "c"; deployer_of "d"]
         (start fleet no_env []))
  = Returned
      [deployer_of "b"; deployer_of "a"; deployer_of "c"; deployer_of "d"]
  /\ documented_order fleet
       [deployer_of "a"; deployer_of "b"; deployer_of "c"; deployer_of "d"]
     = [deployer_of "a"; deployer_of "b"; deployer_of "c"; deployer_of "d"].
Proof. split; reflexivity. Qed.

(** The scheduler on the four nodes of [fleet]. *)
Lemma order_permutation_stable_witness :
  Forall (node_exists fleet)
    [deployer_of "d"; deployer_of "a"; deployer_of "c"; deployer_of "b"]
  /\ exists out s',
      _order_ec2_deployers_by_priority
        [deployer_of "d"; deployer_of "a"; deployer_of "c"; deployer_of "b"]
        (start fleet no_env [])
      = (Returned out, s')
      /\ Permutation
           [deployer_of "d"; deployer_of "a"; deployer_of "c";
            deployer_of "b"] out
      /\ (forall o h,
            filter (in_bucket fleet o h) out
            = filter (in_bucket fleet o h)
                [deployer_of "d"; deployer_of "a"; deployer_of "c";
                 deployer_of "b"])
      /\ world s' = fleet
      /\ env s' = no_env
      /\ stdin s' = []
      /\ (exists evs, trace s' = [] ++ evs /\ forallb is_query evs = true).
Proof.
  assert (Hall : Forall (node_exists fleet)
                   [deployer_of "d"; deployer_of "a"; deployer_of "c";
                    deployer_of "b"])
    by (repeat constructor; discriminate).
  split; [exact Hall|].
  exact (order_permutation_stable
           [deployer_of "d"; deployer_of "a"; deployer_of "c"; deployer_of "b"]
           (start fleet no_env []) Hall).
Defined.

(** C8, as stated.  On a batch with a deployer whose node does not exist
    the scheduler raises [AttributeError]: it returns no permutation. *)
Lemma order_raises_without_node :
  ~ exists out s',
      _order_ec2_deployers_by_priority [deployer_of "ghost"]
        (start empty_cloud no_env [])
      = (Returned out, s')
      /\ Permutation [deployer_of "ghost"] out.
Proof.
  intros (out & s' & Hrun & _). vm_compute in Hrun. discriminate.
Qed.

(** Node 3 of [fleet], which is in service and fails its health check,
    once it has been rotated out: no attempt brings it back. *)
Lemma restore_prompts_after_eleven_attempts_witness :
  let w := take_out_of_service 3 fleet in
  is_operational 3 fleet = true
  /\ 11 <= 11
  /\ down_for 3 11 w
  /\ count_events is_make_operational (bounded_phase 3 w) = 11
  /\ count_events is_prompt (bounded_phase 3 w) = 0
  /\ is_operational 3 (after_attempts 3 11 w) = false
  /\ restore_operation 11 (Some 3) the_deployment true
       (mkSys w no_env ["I"] [])
     = (Returned tt,
        mkSys (after_attempts 3 11 w) no_env []
          ([] ++ bounded_phase 3 w ++ [Prompted (node_prompt_text 3)]))
  /\ restore_operation 11 (Some 3) the_deployment true
       (mkSys w no_env ["F"] [])
     = (Exited 1,
        mkSys (after_attempts 3 11 w) no_env []
          ([] ++ bounded_phase 3 w
           ++ [Prompted (node_prompt_text 3);
               Log CRITICAL "Node %s not healthy. Aborting deployment"
                 [node_str 3]])).
Proof.
  intros w.
  assert (Hfuel : 11 <= 11) by lia.
  assert (Hdown : down_for 3 11 w)
    by (intros j Hj;
        do 11 (destruct j as [|j]; [split; reflexivity|]); lia).
  split; [reflexivity|]. split; [exact Hfuel|]. split; [exact Hdown|].
  exact (restore_prompts_after_eleven_attempts 3 the_deployment no_env []
           11 w [] Hfuel Hdown).
Defined.

(** The same node, the operator answering "R" twice and then "I". *)
Lemma retry_does_not_reset_count_witness :
  let w := take_out_of_service 3 fleet in
  let text := node_prompt_text 3 in
  let retries := retried_turns 3 2 (after_attempts 3 11 w) in
  let evs :=
    bounded_phase 3 w ++ [Prompted text] ++ prompted_turns text retries
    ++ closing_events 3 "I" in
  ("I" = "I" \/ "I" = "F")
  /\ 11 + 2 <= 13
  /\ down_for 3 (11 + 2) w
  /\ restore_operation 13 (Some 3) the_deployment true
       (mkSys w no_env (repeat "R" 2 ++ "I" :: []) [])
     = (final_outcome "I",
        mkSys (after_attempts 3 (11 + 2) w) no_env [] ([] ++ evs))
  /\ count_events is_make_operational (bounded_phase 3 w) = 11
  /\ count_events is_prompt (bounded_phase 3 w) = 0
  /\ List.length retries = 2
  /\ Forall one_full_attempt retries
  /\ count_events is_make_operational evs = 11 + 2
  /\ count_events is_prompt evs = 2 + 1.
Proof.
  intros w text retries evs.
  assert (Hfinal : "I" = "I" \/ "I" = "F") by (left; reflexivity).
  assert (Hfuel : 11 + 2 <= 13) by lia.
  assert (Hdown : down_for 3 (11 + 2) w)
    by (intros j Hj;
        do 13 (destruct j as [|j]; [split; reflexivity|]); cbn in Hj; lia).
  split; [exact Hfinal|]. split; [exact Hfuel|]. split; [exact Hdown|].
  exact (retry_does_not_reset_count 3 the_deployment no_env "I" [] 2 13 w []
           Hfinal Hfuel Hdown).
Defined.

(** The only node in service, an unattended run, a block that would run
    the deployer. *)
Lemma seamless_aborts_when_unattended_witness :
  has_required_redundancy the_deployment 3 lone_node = false
  /\ interactive unattended = Some false
  /\ seamless_modification 20 (Some 3) the_deployment true true
       (call_run (deployer_of "c")) (start lone_node unattended [])
     = (Exited 1,
        traced (start lone_node unattended [])
          [HasRequiredRedundancy the_deployment 3;
           Log CRITICAL
             "Not possible to avoid service interruption to node %s"
             [node_str 3];
           Log CRITICAL "Deployment marked non-interactive. Aborting." []]).
Proof.
  assert (Hred : has_required_redundancy the_deployment 3
                   (world (start lone_node unattended [])) = false)
    by reflexivity.
  assert (Hint : interactive (env (start lone_node unattended []))
                 = Some false)
    by reflexivity.
  split; [exact Hred|]. split; [exact Hint|].
  exact (seamless_aborts_when_unattended 20 3 the_deployment true
           (call_run (deployer_of "c")) (start lone_node unattended [])
           Hred Hint).
Defined.

(** Generation mode on [dead_cloud], whose node no repair brings into
    service, with an operator ready to answer "I". *)
Lemma generation_prompt_raises_witness :
  active_is_fully_operational the_deployment
    (snd (repair_active_generation the_deployment true (Some false)
            dead_cloud)) = false
  /\ restore_operation 1 None the_deployment true
       (start dead_cloud no_env ["I"])
     = (Raised
          (TypeError "not all arguments converted during string formatting"),
        mkSys
          (snd (repair_active_generation the_deployment true (Some false)
                  dead_cloud))
          no_env ["I"]
          ([] ++ [Log INFO "Restoring operation: %s" ["None"];
                  RepairActiveGeneration the_deployment true (Some false);
                  ActiveIsFullyOperational the_deployment])).
Proof.
  assert (Hnot : active_is_fully_operational the_deployment
                   (snd (repair_active_generation the_deployment true
                           (Some false)
                           (world (start dead_cloud no_env ["I"])))) = false)
    by reflexivity.
  split; [exact Hnot|].
  exact (generation_prompt_raises 0 the_deployment
           (start dead_cloud no_env ["I"]) Hnot).
Defined.

(** A seeded deployer at the head of a batch, nothing created yet, an
    operator who first answers "maybe". *)
Lemma seed_gate_precedes_creation_witness :
  seed_verification seeded_deployer = true
  /\ get_node seeded_deployer empty_cloud = None
  /\ Forall not_yes_no ["maybe"]
  /\ provision_nodes ([] ++ seeded_deployer :: [deployer_of "a"])
       (mkSys empty_cloud no_env (["maybe"] ++ "No" :: []) [])
     = (Exited 1,
        mkSys empty_cloud no_env []
          ([] ++ [GetNode seeded_deployer]
           ++ repeat (Prompted (seed_prompt_text seeded_deployer)) 2
           ++ [Log CRITICAL
                 "Node %s-%s would be affected. Aborting deployment"
                 ["seed"; "seed-db0"]]))
  /\ provision_nodes ([] ++ seeded_deployer :: [])
       (mkSys empty_cloud no_env (["maybe"] ++ "Yes" :: []) [])
     = provision_nodes []
         (mkSys (ensure_node_created seeded_deployer empty_cloud) no_env []
            ([] ++ [GetNode seeded_deployer]
             ++ repeat (Prompted (seed_prompt_text seeded_deployer)) 2
             ++ [EnsureNodeCreated seeded_deployer])).
Proof.
  assert (Hseed : seed_verification seeded_deployer = true) by reflexivity.
  assert (Hnode : get_node seeded_deployer empty_cloud = None)
    by reflexivity.
  assert (Hjunk : Forall not_yes_no ["maybe"])
    by (repeat constructor).
  split; [exact Hseed|]. split; [exact Hnode|]. split; [exact Hjunk|].
  split.
  - exact (proj1 (seed_gate_precedes_creation [] [deployer_of "a"]
                    seeded_deployer
                    (mkSys empty_cloud no_env (["maybe"] ++ "No" :: []) [])
                    empty_cloud no_env ["maybe"] [] [] Hseed Hnode Hjunk)
             eq_refl).
  - exact (proj2 (seed_gate_precedes_creation [] [] seeded_deployer
                    (mkSys empty_cloud no_env (["maybe"] ++ "Yes" :: []) [])
                    empty_cloud no_env ["maybe"] [] [] Hseed Hnode Hjunk)
             eq_refl).
Defined.

(** [repair] on two idle, healthy nodes. *)
Lemma repair_reports_activated_nodes_witness :
  _deployment_name repair_env = Some "prod"
  /\ _deployment_confs repair_env
     = Some {| ec2 := Some []; rds := Some []; elb := Some [] |}
  /\ _active_gen repair_env = Some true
  /\ fst (verify_deployment_state the_deployment None idle_pair) = None
  /\ repair "n" (start idle_pair repair_env [])
     = (Returned tt,
        mkSys (put_in_service [1; 2] idle_pair) repair_env []
          [VerifyDeploymentState the_deployment None;
           RepairActiveGeneration the_deployment false None;
           Log INFO "Succesfully made %s node(s) operational" ["2"]]).
Proof.
  assert (Hname : _deployment_name (env (start idle_pair repair_env []))
                  = Some "prod") by reflexivity.
  assert (Hconfs : _deployment_confs (env (start idle_pair repair_env []))
                   = Some {| ec2 := Some []; rds := Some []; elb := Some [] |})
    by reflexivity.
  assert (Hactive : _active_gen (env (start idle_pair repair_env []))
                    = Some true) by reflexivity.
  assert (Hok : fst (verify_deployment_state the_deployment None
                       (world (start idle_pair repair_env []))) = None)
    by reflexivity.
  split; [exact Hname|]. split; [exact Hconfs|]. split; [exact Hactive|].
  split; [exact Hok|].
  exact (repair_reports_activated_nodes "n" "prod"
           {| ec2 := Some []; rds := Some []; elb := Some [] |} [] [] []
           (start idle_pair repair_env [])
           Hname Hconfs Hactive eq_refl eq_refl eq_refl Hok).
Defined.

(** [repair] when every node is in service already. *)
Example repair_reports_nothing_to_do :
  repair "y" (start lone_node repair_env [])
  = (Returned tt,
     mkSys lone_node repair_env []
       [VerifyDeploymentState the_deployment None;
        RepairActiveGeneration the_deployment true None;
        Log INFO "No nodes modified" []]).
Proof. reflexivity. Qed.

(** [up] on an environment with one EC2 node and no seed environment. *)
Lemma up_stops_at_assert_witness :
  exists s1,
    up 20 no_hooks "prod" seedless_manager tt ACTIVE
      (start empty_cloud no_env [])
    = (Raised AssertionError, s1).
Proof.
  eexists.
  eapply (proj1 (up_stops_at_assert 20 no_hooks "prod" seedless_manager tt
                   ACTIVE (start empty_cloud no_env []))).
  vm_compute. reflexivity.
Defined.

(** C2, as stated.  With a seed environment and a node configuration that
    has the key 'seed' and not the key 'seed_node', [up] reaches the
    deployer-building phase and ends there with a [KeyError], not with the
    [AssertionError]. *)
Lemma up_raises_key_error_while_building :
  fst (up 20 no_hooks "prod" seeded_manager tt ACTIVE
         (start empty_cloud no_env []))
  = Raised (KeyError "seed_node")
  /\ In (Log INFO "Building Node deployers" [])
       (trace (snd (up 20 no_hooks "prod" seeded_manager tt ACTIVE
                      (start empty_cloud no_env []))))
  /\ fst (up 20 no_hooks "prod" seeded_manager tt ACTIVE
            (start empty_cloud no_env []))
     <> Raised AssertionError.
Proof.
  split; [reflexivity|]. split.
  - vm_compute. repeat ((left; reflexivity) || right).
  - vm_compute. discriminate.
Qed.

(** The node "web0" of the 'ec2' section comes out as an
    [RdsNodeDeployment] of type "rds", in [rds_deployers]. *)
Lemma build_pairs_section_with_other_type_witness :
  _active_gen unattended = Some true
  /\ fst (build_deployers (one_web_node plain_conf) the_deployment None
            (start empty_cloud unattended []))
     = Returned
         ([],
          [{| klass := RdsNodeDeployment;
              deployment := the_deployment;
              seed_deployment := None;
              is_active := true;
              aws_type := "rds";
              node_name := "web0";
              seed_node_name := None;
              seed_verification := false;
              brain_wrinkles := [];
              conf := plain_conf |}]).
Proof.
  assert (Hactive : _active_gen (env (start empty_cloud unattended []))
                    = Some true) by reflexivity.
  split; [exact Hactive|].
  exact (build_pairs_section_with_other_type (one_web_node plain_conf)
           the_deployment true (start empty_cloud unattended []) Hactive).
Defined.

End Runs.

(** ** Further properties *)

Section MoreProperties.

Context {N W : Type} `{Cloud N W}.

#[local] Abbreviation Act := (M N W).

(** *** The scheduler *)

Lemma classify_all_trace (ds : list NodeDeployer) :
  forall (b : Buckets) (s : Sys N W),
    Forall (node_exists (world s)) ds ->
    for_fold ds b classify_deployer s
    = (Returned (fill (world s) b ds),
       traced s (flat_map (query_events (world s)) ds)).
Proof.
  induction ds as [|dp ds IH]; intros b s Hall.
  - cbn [for_fold flat_map]. unfold ret, fill. cbn [filter].
    rewrite !app_nil_r, traced_nil. now destruct b.
  - inversion Hall as [|? ? Hdp Hrest]; subst.
    unfold node_exists in Hdp.
    destruct (get_node dp (world s)) as [n|] eqn:Hnode; [|congruence].
    cbn [for_fold flat_map]. unfold bind at 1.
    rewrite (classify_deployer_run _ _ _ _ Hnode).
    rewrite IH by exact Hrest. cbn [world traced].
    rewrite (fill_place _ _ _ _ _ Hnode), traced_traced.
    unfold query_events at 2. rewrite Hnode. reflexivity.
Qed.

Lemma for_fold_app {A B : Type} (xs ys : list A) (body : B -> A -> Act B)
  (acc acc1 : B) (s s1 : Sys N W) :
  for_fold xs acc body s = (Returned acc1, s1) ->
  for_fold (xs ++ ys) acc body s = for_fold ys acc1 body s1.
Proof.
  revert acc s. induction xs as [|x xs IH]; intros acc s Hrun; cbn in *.
  - unfold ret in Hrun. now inversion Hrun.
  - unfold bind in *. destruct (body acc x s) as [[acc'| | | |] s'];
      try discriminate. now apply IH.
Qed.

Lemma order_run_exact (ds : list NodeDeployer) (s : Sys N W) :
  Forall (node_exists (world s)) ds ->
  _order_ec2_deployers_by_priority ds s
  = (Returned (returned_order (world s) ds),
     traced s (flat_map (query_events (world s)) ds)).
Proof.
  intros Hall. unfold _order_ec2_deployers_by_priority, bind.
  rewrite (classify_all_trace ds _ s Hall). reflexivity.
Qed.

Lemma returned_order_idem (w : W) (ds : list NodeDeployer) :
  returned_order w (returned_order w ds) = returned_order w ds.
Proof.
  unfold returned_order at 1. rewrite !returned_order_stable. reflexivity.
Qed.

(** X1.  The scheduler asks each deployer for its node once, and each node
    once whether it is operational and once whether it is healthy, in the
    order of the batch; it does nothing else. *)
Theorem order_reads_each_deployer_once (ds : list NodeDeployer)
  (s : Sys N W) :
  Forall (node_exists (world s)) ds ->
  snd (_order_ec2_deployers_by_priority ds s)
  = traced s (flat_map (query_events (world s)) ds).
Proof.
  intros Hall. unfold _order_ec2_deployers_by_priority, bind.
  rewrite (classify_all_trace ds _ s Hall). reflexivity.
Qed.

(** X2.  At the first deployer of the batch whose node does not exist the
    scheduler raises [AttributeError]: the deployers before it have been
    read, the ones after it are not, and the cloud is as it was. *)
Theorem order_raises_at_first_missing_node
  (before after : list NodeDeployer) (dp : NodeDeployer) (s : Sys N W) :
  Forall (node_exists (world s)) before ->
  get_node dp (world s) = None ->
  _order_ec2_deployers_by_priority (before ++ dp :: after) s
  = (Raised
       (AttributeError "'NoneType' object has no attribute 'is_operational'"),
     traced s (flat_map (query_events (world s)) before ++ [GetNode dp])).
Proof.
  intros Hall Hnode. unfold _order_ec2_deployers_by_priority, bind at 1.
  rewrite (for_fold_app _ _ _ _ _ _ _
             (classify_all_trace before (mkBuckets [] [] [] []) s Hall)).
  cbn [for_fold]. unfold bind at 1, classify_deployer, bind at 1,
    call_get_node, bind, emit, read_world.
  cbn [world env stdin trace traced]. rewrite Hnode.
  cbn [attr_is_operational]. unfold raise, traced.
  cbn [world env stdin trace]. rewrite <- app_assoc. reflexivity.
Qed.

Lemma filter_in_bucket_all (w : W) (o h : bool) (ds : list NodeDeployer) :
  forallb (in_bucket w o h) (filter (in_bucket w o h) ds) = true.
Proof.
  induction ds as [|dp ds IH]; [reflexivity|]. cbn [filter].
  destruct (in_bucket w o h dp) eqn:Hb; [|exact IH].
  cbn [forallb]. now rewrite Hb, IH.
Qed.

Lemma forallb_weaken {A : Type} (p q : A -> bool) (l : list A) :
  (forall x, p x = true -> q x = true) ->
  forallb p l = true -> forallb q l = true.
Proof.
  intros Hpq. induction l as [|x l IH]; [reflexivity|]. cbn [forallb].
  intros Hall. apply andb_prop in Hall as [Hx Hl].
  now rewrite (Hpq _ Hx), (IH Hl).
Qed.

(** X3.  In what the scheduler returns every deployer of an inoperative
    node comes before every deployer of an operational node, and among the
    operational ones the unhealthy come before the healthy. *)
Theorem order_puts_inoperative_before_operational (ds : list NodeDeployer)
  (s : Sys N W) :
  Forall (node_exists (world s)) ds ->
  exists inoperative unhealthy healthy,
    fst (_order_ec2_deployers_by_priority ds s)
    = Returned (inoperative ++ unhealthy ++ healthy)
    /\ forallb (operational_in (world s) false) inoperative = true
    /\ forallb (in_bucket (world s) true false) unhealthy = true
    /\ forallb (in_bucket (world s) true true) healthy = true.
Proof.
  intros Hall.
  exists (filter (in_bucket (world s) false true) ds
          ++ filter (in_bucket (world s) false false) ds),
    (filter (in_bucket (world s) true false) ds),
    (filter (in_bucket (world s) true true) ds).
  split; [|split; [|split]]; try apply filter_in_bucket_all.
  - unfold _order_ec2_deployers_by_priority, bind.
    rewrite (classify_all_trace ds _ s Hall). cbn [fst ret fill].
    unfold ret. cbn [fst io_healthy io_unhealthy o_unhealthy o_healthy app].
    now rewrite <- app_assoc.
  - rewrite forallb_app. apply andb_true_intro. split.
    + apply (forallb_weaken (in_bucket (world s) false true));
        [|apply filter_in_bucket_all].
      intros dp Hdp. unfold operational_in. rewrite Hdp.
      apply orb_true_r.
    + apply (forallb_weaken (in_bucket (world s) false false));
        [|apply filter_in_bucket_all].
      intros dp Hdp. unfold operational_in. now rewrite Hdp.
Qed.

(** X4.  Scheduling what the scheduler returned returns it again: the
    order is a fixed point. *)
Theorem order_of_ordered_batch_is_unchanged (ds : list NodeDeployer)
  (s : Sys N W) :
  Forall (node_exists (world s)) ds ->
  exists out s1 s2,
    _order_ec2_deployers_by_priority ds s = (Returned out, s1)
    /\ _order_ec2_deployers_by_priority out s1 = (Returned out, s2).
Proof.
  intros Hall.
  assert (Hout : Forall (node_exists (world s)) (returned_order (world s) ds)).
  { eapply Permutation_Forall; [|exact Hall].
    now apply returned_order_permutation. }
  exists (returned_order (world s) ds),
    (traced s (flat_map (query_events (world s)) ds)),
    (traced (traced s (flat_map (query_events (world s)) ds))
       (flat_map (query_events (world s)) (returned_order (world s) ds))).
  split; [now apply order_run_exact|].
  rewrite order_run_exact by exact Hout.
  cbn [world traced]. now rewrite returned_order_idem.
Qed.

(** *** [seamless_modification] *)

Lemma redundancy_prompt_text_format (n : N) :
  py_format
    (nl ++ nl ++
     "Not possible to avoid service interruption to node %s. Continue anyway? (Y/N)")%string
    [node_str n]
  = inr (redundancy_prompt_text n).
Proof. reflexivity. Qed.

Lemma bind_run {A B : Type} (m : Act A) (k : A -> Act B) (a : A)
  (s s1 : Sys N W) :
  m s = (Returned a, s1) -> bind m k s = k a s1.
Proof. intros Hm. unfold bind. now rewrite Hm. Qed.

Lemma bind_ret_unit (m : Act unit) (s : Sys N W) :
  bind m (fun _ => ret tt) s = m s.
Proof.
  unfold bind, ret. destruct (m s) as [[[]| | | |] s1]; reflexivity.
Qed.

Lemma rotate_out_run (n : N) (make_operational : bool) (s : Sys N W) :
  rotate_out (Some n) make_operational s
  = (Returned (is_operational n (world s) || make_operational), entered n s).
Proof.
  unfold rotate_out, entered, bind, node_is_operational, bind, emit,
    read_world, logger, call_make_temporarily_inoperative, bind, emit,
    update_world, ret, traced, rotation_events.
  cbn [world env stdin trace].
  destruct (is_operational n (world s)); cbn [orb world env stdin trace];
    rewrite <- ?app_assoc; reflexivity.
Qed.

(** [seamless_modification] on a known node, once the redundancy check is
    behind. *)
Lemma seamless_from_entry (fuel : nat) (n : N) (d : Deployment)
  (make_operational_if_not_already : bool) (body : Act unit) (s : Sys N W) :
  seamless_modification fuel (Some n) d false make_operational_if_not_already
    body s
  = (body ;;
     restore_operation fuel (Some n) d
       (is_operational n (world s) || make_operational_if_not_already))
      (entered n s).
Proof.
  unfold seamless_modification. cbn [check_redundancy].
  unfold bind at 1, ret. unfold bind at 1. now rewrite rotate_out_run.
Qed.

(** X5.  Without a node and with nothing to make operational afterwards,
    [seamless_modification] is the block of the [with] statement and
    nothing else. *)
Theorem seamless_without_node_is_the_block (fuel : nat) (d : Deployment)
  (force_seamless : bool) (body : Act unit) (s : Sys N W) :
  seamless_modification fuel None d force_seamless false body s = body s.
Proof.
  unfold seamless_modification. cbn [check_redundancy rotate_out].
  unfold bind at 1, ret. unfold bind at 1.
  unfold restore_operation. apply bind_ret_unit.
Qed.

(** X6.  When the deployment has the redundancy the node requires,
    [force_seamless] adds the query of it and changes nothing else. *)
Theorem seamless_with_redundancy_only_asks (fuel : nat) (n : N)
  (d : Deployment) (make_operational_if_not_already : bool)
  (body : Act unit) (s : Sys N W) :
  has_required_redundancy d n (world s) = true ->
  seamless_modification fuel (Some n) d true make_operational_if_not_already
    body s
  = seamless_modification fuel (Some n) d false
      make_operational_if_not_already body
      (traced s [HasRequiredRedundancy d n]).
Proof.
  intros Hred. unfold seamless_modification.
  unfold bind at 1. unfold bind at 3.
  unfold check_redundancy, bind at 1, call_has_required_redundancy, bind,
    emit, read_world. cbn [world env stdin trace]. rewrite Hred.
  reflexivity.
Qed.

(** X7.  Without the required redundancy and in an interactive run (the
    default when [env] has no key 'interactive'), the operator is asked
    once.  The answer "Y" lets the modification go on as if
    [force_seamless] were off; any other answer, "y" included, logs the
    abort and exits with status 1 before the node is touched or the block
    run. *)
Theorem seamless_asks_operator_without_redundancy (fuel : nat) (n : N)
  (d : Deployment) (make_operational_if_not_already : bool)
  (body : Act unit) (w : W) (e : Env) (answer : string)
  (rest : list string) (tr : list (Event N)) :
  has_required_redundancy d n w = false ->
  is_attended e = true ->
  seamless_modification fuel (Some n) d true make_operational_if_not_already
    body (mkSys w e (answer :: rest) tr)
  = let asked :=
      tr ++ [HasRequiredRedundancy d n;
             Prompted (redundancy_prompt_text n)] in
    if answer =? "Y" then
      seamless_modification fuel (Some n) d false
        make_operational_if_not_already body (mkSys w e rest asked)
    else
      (Exited 1,
       mkSys w e rest
         (asked
          ++ [Log CRITICAL
                ("Node " ++ node_str n
                 ++ " doesn't have required redundancy. Aborting")%string
                []])).
Proof.
  intros Hred Hattended. unfold seamless_modification.
  unfold bind at 1. unfold bind at 3.
  unfold check_redundancy, bind at 1, call_has_required_redundancy, bind at 1,
    emit, read_world. cbn [world env stdin trace]. rewrite Hred.
  cbn [negb]. unfold bind at 1, read_env. cbn [world env stdin trace].
  unfold is_attended in Hattended. rewrite Hattended.
  rewrite redundancy_prompt_text_format. unfold bind at 1, lift_fmt, ret.
  unfold bind at 1, prompt. cbn [world env stdin trace].
  rewrite <- app_assoc. cbn [app].
  destruct (answer =? "Y"); cbn [negb]; [reflexivity|].
  unfold bind, lift_fmt, ret, logger, emit, exit. cbn.
  rewrite <- !app_assoc. reflexivity.
Qed.

(** X8.  A node that is not operational is not rotated out, and unless
    [make_operational_if_not_already] is set it is not made operational
    afterwards either: the modification is the query of the node followed
    by the block. *)
Theorem seamless_leaves_inoperative_node_alone (fuel : nat) (n : N)
  (d : Deployment) (body : Act unit) (s : Sys N W) :
  is_operational n (world s) = false ->
  seamless_modification fuel (Some n) d false false body s
  = body (traced s [IsOperational n]).
Proof.
  intros Hdown. rewrite seamless_from_entry. unfold entered.
  rewrite Hdown. cbn [orb]. unfold restore_operation. apply bind_ret_unit.
Qed.

(** X9.  When the block of the [with] statement does not return (it
    raises, exits or waits for input), the modification ends as the block
    did, in the state the block left: an operational node has been rotated
    out and is not made operational again. *)
Theorem seamless_does_not_restore_when_block_fails (fuel : nat) (n : N)
  (d : Deployment) (make_operational_if_not_already : bool)
  (body : Act unit) (s : Sys N W) :
  is_returned (fst (body (entered n s))) = false ->
  seamless_modification fuel (Some n) d false make_operational_if_not_already
    body s
  = body (entered n s).
Proof.
  intros Hfails. rewrite seamless_from_entry. unfold bind.
  destruct (body (entered n s)) as [[a| | | |] s1]; cbn in Hfails;
    try discriminate; reflexivity.
Qed.

(** X10.  When the node was operational, or
    [make_operational_if_not_already] is set, and the block returns, the
    node is made operational after it; when the node is then in service the
    modification returns after that one call, without waiting and without
    a prompt. *)
Theorem seamless_restores_operation_after_block (fuel : nat) (n : N)
  (d : Deployment) (make_operational_if_not_already : bool)
  (body : Act unit) (s s1 : Sys N W) :
  is_operational n (world s) || make_operational_if_not_already = true ->
  body (entered n s) = (Returned tt, s1) ->
  is_operational n (snd (make_operational n (world s1))) = true ->
  seamless_modification (S fuel) (Some n) d false
    make_operational_if_not_already body s
  = (Returned tt,
     mkSys (snd (make_operational n (world s1))) (env s1) (stdin s1)
       (trace s1
        ++ Log INFO "Restoring operation: %s" [node_str n]
           :: make_operational_events n (world s1)
        ++ [IsOperational n;
            Log INFO "Node %s now operational" [node_str n]])).
Proof.
  intros Hrestore Hbody Hup. rewrite seamless_from_entry.
  rewrite (bind_run _ _ _ _ _ Hbody), Hrestore.
  unfold restore_operation, bind at 1, logger at 1, emit.
  cbn [py_str restore_node world env stdin trace].
  rewrite make_operational_then. cbn [world env stdin trace].
  unfold bind at 1, node_is_operational, bind at 1, emit, read_world.
  cbn [world env stdin trace]. rewrite Hup.
  unfold logger, emit. cbn [world env stdin trace].
  rewrite <- !app_assoc. reflexivity.
Qed.

(** *** The known-node loop *)

(** X11.  A node that stays out of service for [k] attempts, with [k] at
    most ten, and is in service right after the next call of
    [make_operational], is restored without the operator: the loop makes
    [k + 1] calls of [make_operational], waits [k] times, shows no prompt,
    reads no input and returns. *)
Theorem restore_converges_without_operator (fuel k : nat) (n : N)
  (d : Deployment) (s : Sys N W) :
  k <= auto_retries ->
  down_for n k (world s) ->
  is_operational n
    (snd (make_operational n (after_attempts n k (world s)))) = true ->
  exists evs,
    restore_operation (S k + fuel) (Some n) d true s
    = (Returned tt,
       mkSys (snd (make_operational n (after_attempts n k (world s))))
         (env s) (stdin s) (trace s ++ evs))
    /\ count_events is_make_operational evs = S k
    /\ count_events is_sleep evs = k
    /\ count_events is_prompt evs = 0.
Proof.
  intros Hle Hdown Hup.
  exists (Log INFO "Restoring operation: %s" [node_str n]
          :: retry_events n k (world s)
          ++ make_operational_events n (after_attempts n k (world s))
          ++ [IsOperational n;
              Log INFO "Node %s now operational" [node_str n]]).
  split.
  - unfold restore_operation, bind at 1, logger at 1, emit.
    cbn [py_str world env stdin trace].
    replace (S k + fuel) with (k + S fuel) by lia.
    rewrite retry_phase by (assumption || (cbn [Nat.add]; exact Hle)).
    cbn [restore_node]. rewrite make_operational_then.
    cbn [world env stdin trace].
    unfold bind at 1, node_is_operational, bind at 1, emit, read_world.
    cbn [world env stdin trace]. rewrite Hup.
    unfold logger, emit. cbn [world env stdin trace].
    rewrite <- !app_assoc. reflexivity.
  - destruct (retry_events_counts n k (world s)) as (Hmake & Hprompt & Hsleep).
    change (Log INFO "Restoring operation: %s" [node_str n]
            :: retry_events n k (world s)
            ++ make_operational_events n (after_attempts n k (world s))
            ++ [IsOperational n;
                Log INFO "Node %s now operational" [node_str n]])
      with ([Log INFO "Restoring operation: %s" [node_str n]]
            ++ retry_events n k (world s)
            ++ make_operational_events n (after_attempts n k (world s))
            ++ [IsOperational n;
                Log INFO "Node %s now operational" [node_str n]]).
    rewrite !count_events_app, Hmake, Hprompt, Hsleep.
    unfold make_operational_events.
    destruct (fst (make_operational n (after_attempts n k (world s))));
      repeat split; cbn; lia.
Qed.

(** X13.  Without a node and with [make_operational_if_not_already] set,
    the active generation is repaired after the block, forcing operation
    and without waiting; when the generation is then fully operational the
    modification returns, without a prompt. *)
Theorem seamless_repairs_generation_after_block (fuel : nat)
  (d : Deployment) (force_seamless : bool) (body : Act unit)
  (s s1 : Sys N W) :
  body s = (Returned tt, s1) ->
  active_is_fully_operational d
    (snd (repair_active_generation d true (Some false) (world s1))) = true ->
  seamless_modification (S fuel) None d force_seamless true body s
  = (Returned tt,
     mkSys (snd (repair_active_generation d true (Some false) (world s1)))
       (env s1) (stdin s1)
       (trace s1
        ++ [Log INFO "Restoring operation: %s" ["None"];
            RepairActiveGeneration d true (Some false);
            ActiveIsFullyOperational d;
            Log INFO "Active generation is fully operational" []])).
Proof.
  intros Hbody Hup.
  unfold seamless_modification. cbn [check_redundancy rotate_out].
  unfold bind at 1, ret. unfold bind at 1.
  rewrite (bind_run _ _ _ _ _ Hbody).
  unfold restore_operation, bind at 1, logger at 1, emit.
  cbn [py_str world env stdin trace restore_generation].
  unfold bind at 1, call_repair_active_generation, bind at 1, emit.
  cbn [world env stdin trace].
  destruct (repair_active_generation d true (Some false) (world s1))
    as [activated w'].
  cbn [snd world env stdin trace] in *.
  unfold bind at 1, call_active_is_fully_operational, bind at 1, emit,
    read_world.
  cbn [world env stdin trace]. rewrite Hup.
  unfold logger, emit. cbn [world env stdin trace].
  rewrite <- !app_assoc. reflexivity.
Qed.

(** *** Provisioning and the seed verification gate *)

Lemma provision_nodes_run (ds : list NodeDeployer) :
  Forall (fun dp => seed_verification dp = false) ds ->
  forall s : Sys N W,
    provision_nodes ds s
    = (Returned tt,
       mkSys (all_created ds (world s)) (env s) (stdin s)
         (trace s ++ map EnsureNodeCreated ds)).
Proof.
  intros Hall.
  induction Hall as [|dp ds Hdp _ IH]; intros s.
  - cbn. unfold ret. rewrite app_nil_r. now destruct s.
  - unfold provision_nodes in *. cbn [for_each]. unfold bind at 1.
    unfold provision_node. rewrite Hdp. unfold bind at 1, ret.
    unfold call_ensure_node_created, bind, emit, update_world.
    cbn [world env stdin trace]. rewrite IH.
    cbn [world env stdin trace all_created fold_left map].
    rewrite <- app_assoc. reflexivity.
Qed.

(** X14.  A batch of deployers none of which asks for seed verification is
    provisioned without a question: [ensure_node_created] is called for
    each deployer, in the order of the batch, and nothing else happens. *)
Theorem provision_creates_every_node_in_order (ds : list NodeDeployer)
  (s : Sys N W) :
  Forall (fun dp => seed_verification dp = false) ds ->
  provision_nodes ds s
  = (Returned tt,
     mkSys (all_created ds (world s)) (env s) (stdin s)
       (trace s ++ map EnsureNodeCreated ds)).
Proof.
  intros Hall. now apply provision_nodes_run.
Qed.

Lemma ask_from_inv (opts : list string) (text : string)
  (inputs : list string) :
  forall shown : list (Event N),
    match ask_from opts text inputs shown with
    | (Some answer, rest, _) =>
        py_in answer opts = true
        /\ exists junk,
             inputs = junk ++ answer :: rest
             /\ Forall (fun a => py_in a opts = false) junk
    | (None, rest, _) =>
        rest = [] /\ Forall (fun a => py_in a opts = false) inputs
    end.
Proof.
  induction inputs as [|a inputs IH]; intros shown; cbn [ask_from].
  - now split.
  - destruct (py_in a opts) eqn:Ha.
    + split; [exact Ha|]. now exists [].
    + specialize (IH (shown ++ [Prompted text])).
      destruct (ask_from opts text inputs (shown ++ [Prompted text]))
        as [[[answer|] rest] shown'].
      * destruct IH as (Hanswer & junk & -> & Hjunk).
        split; [exact Hanswer|]. exists (a :: junk). split; [reflexivity|].
        now constructor.
      * destruct IH as (-> & Hall). split; [reflexivity|].
        now constructor.
Qed.

Lemma yes_or_no (answer : string) :
  py_in answer ["Yes"; "No"] = true -> answer = "Yes" \/ answer = "No".
Proof.
  unfold py_in. cbn [existsb]. intros Hin.
  apply orb_prop in Hin as [Hyes|Hin]; [left; now apply String.eqb_eq|].
  apply orb_prop in Hin as [Hno|Hin]; [right; now apply String.eqb_eq|].
  discriminate.
Qed.

(** X15.  The seed verification gate is passed by the answer "Yes" and by
    nothing else.  It returns only when the first answer among "Yes" and
    "No" is "Yes", exits with status 1 only when it is "No", and waits
    when there is none; it never raises, and leaves the cloud as it
    was. *)
Theorem seed_gate_opens_only_on_yes (dp : NodeDeployer) (s : Sys N W) :
  let ran := _prompt_for_seed_verification dp s in
  world (snd ran) = world s
  /\ match fst ran with
     | Returned _ =>
         exists junk,
           stdin s = junk ++ "Yes" :: stdin (snd ran)
           /\ Forall not_yes_no junk
     | Exited status =>
         status = 1%Z
         /\ exists junk,
              stdin s = junk ++ "No" :: stdin (snd ran)
              /\ Forall not_yes_no junk
     | AwaitingInput => Forall not_yes_no (stdin s)
     | Raised _ | OutOfFuel => False
     end.
Proof.
  intros ran. subst ran.
  unfold _prompt_for_seed_verification, bind, prompt_until_in.
  rewrite seed_prompt_text_format.
  pose proof (ask_from_inv ["Yes"; "No"] (seed_prompt_text dp) (stdin s)
                (trace s)) as Hasked.
  destruct (ask_from ["Yes"; "No"] (seed_prompt_text dp) (stdin s) (trace s))
    as [[[answer|] rest] shown].
  - destruct Hasked as (Hanswer & junk & Hstdin & Hjunk).
    destruct (yes_or_no _ Hanswer) as [-> | ->]; cbn; split;
      try reflexivity; try split; try reflexivity; now exists junk.
  - destruct Hasked as (_ & Hall). cbn. now split.
Qed.

(** *** The roll-out *)



(** *** [up] *)

(** X16.  When the deployment state of the environment does not verify,
    [up] raises what [verify_deployment_state] raised: the seed deployment
    is not looked at and no deployer is built.  [env._active_gen] has been
    set and stays set. *)
Theorem up_stops_when_state_does_not_verify (fuel : nat)
  (hooks : ContribHooks) (environment_name : string)
  (configuration_manager : ConfigurationManager) (resource_tracker : unit)
  (generation : Generation) (failure : Exn) (s : Sys N W) :
  let d :=
    make_deployment environment_name
      (get_environment_config configuration_manager environment_name) in
  fst (verify_deployment_state d (Some false) (world s)) = Some failure ->
  up fuel hooks environment_name configuration_manager resource_tracker
    generation s
  = (Raised failure,
     mkSys (snd (verify_deployment_state d (Some false) (world s)))
       (set_active_gen true (env s)) (stdin s)
       (trace s
        ++ [Log INFO "Gathering deployment state" [];
            VerifyDeploymentState d (Some false)])).
Proof.
  intros d Hfails.
  unfold up, up_build, pre_deploy_validation, gather_deployment_state,
    call_verify_deployment_state, bind, update_env, logger, emit, ret.
  cbn [dict_get_flag world env stdin trace]. fold d.
  destruct (verify_deployment_state d (Some false) (world s))
    as [result w1].
  cbn [fst snd] in *. subst result. unfold raise.
  cbn [world env stdin trace]. rewrite <- !app_assoc. reflexivity.
Qed.

Lemma gather_state_run (configuration_manager : ConfigurationManager)
  (environment_name : string) (s : Sys N W) :
  let config :=
    get_environment_config configuration_manager environment_name in
  let d := make_deployment environment_name config in
  fst (verify_deployment_state d (Some false) (world s)) = None ->
  gather_deployment_state configuration_manager environment_name s
  = (Returned (config, d),
     mkSys (snd (verify_deployment_state d (Some false) (world s)))
       (env s) (stdin s)
       (trace s
        ++ [Log INFO "Gathering deployment state" [];
            VerifyDeploymentState d (Some false)])).
Proof.
  intros config d Hverifies.
  unfold gather_deployment_state, call_verify_deployment_state, bind,
    logger, emit, ret.
  cbn [world env stdin trace]. fold config. fold d.
  destruct (verify_deployment_state d (Some false) (world s))
    as [result w1].
  cbn [fst snd] in *. subst result.
  cbn [world env stdin trace]. rewrite <- !app_assoc. reflexivity.
Qed.

Lemma seedless_state_run (configuration_manager : ConfigurationManager)
  (environment_name : string) (s : Sys N W) :
  seed_deployment_of configuration_manager environment_name = None ->
  gather_seed_deployment_state configuration_manager environment_name s
  = (Returned None,
     traced s [Log INFO "Gathering seed deployment state" []]).
Proof.
  unfold seed_deployment_of, gather_seed_deployment_state, bind, logger,
    emit, traced.
  cbn [world env stdin trace].
  destruct (get_seed_environment_name configuration_manager environment_name)
    as [name|]; [|reflexivity].
  destruct (negb (name =? "")); [discriminate|reflexivity].
Qed.

(** X17.  For an environment without a seed environment whose deployment
    state verifies, [up] runs as follows and then raises
    [AssertionError]: it sets [env._active_gen], verifies the deployment
    state without the old generation, and logs "No seed node configured"
    once for every node of the 'ec2' and 'rds' sections. *)
Theorem up_of_seedless_environment (fuel : nat) (hooks : ContribHooks)
  (environment_name : string) (configuration_manager : ConfigurationManager)
  (resource_tracker : unit) (generation : Generation) (s : Sys N W) :
  let config :=
    get_environment_config configuration_manager environment_name in
  let d := make_deployment environment_name config in
  seed_deployment_of configuration_manager environment_name = None ->
  fst (verify_deployment_state d (Some false) (world s)) = None ->
  up fuel hooks environment_name configuration_manager resource_tracker
    generation s
  = (Raised AssertionError,
     mkSys (snd (verify_deployment_state d (Some false) (world s)))
       (set_active_gen true (env s)) (stdin s)
       (trace s
        ++ [Log INFO "Gathering deployment state" [];
            VerifyDeploymentState d (Some false);
            Log INFO "Gathering seed deployment state" [];
            Log INFO "Building Node deployers" []]
        ++ repeat (Log INFO "No seed node configured" [])
             (List.length (get_or_empty (ec2 config))
              + List.length (get_or_empty (rds config))))).
Proof.
  intros config d Hseedless Hverifies.
  unfold up, bind at 1, up_build, bind at 1, update_env.
  unfold bind at 1, pre_deploy_validation. cbn [dict_get_flag].
  unfold bind at 1, ret. unfold bind at 1.
  rewrite gather_state_run by exact Hverifies.
  fold config. fold d. unfold bind at 1.
  rewrite (seedless_state_run _ _ _ Hseedless).
  unfold build_deployers, bind at 1, logger at 1, emit, traced.
  cbn [world env stdin trace for_fold]. unfold bind at 1.
  rewrite (build_section_run d "rds" true _ (or_intror eq_refl))
    by reflexivity.
  cbn [String.eqb Ascii.eqb Bool.eqb]. unfold bind at 1.
  rewrite (build_section_run d "ec2" true _ (or_introl eq_refl))
    by reflexivity.
  cbn [String.eqb Ascii.eqb Bool.eqb]. unfold ret, assert, raise, traced.
  cbn [world env stdin trace]. rewrite repeat_app.
  rewrite <- !app_assoc. reflexivity.
Qed.

Lemma build_deployer_inv (d : Deployment) (sd : option Deployment)
  (type : string) (k : Klass) (active : bool)
  (ec2_deployers rds_deployers : list NodeDeployer)
  (item : string * NodeConf) (s s1 : Sys N W)
  (built : list NodeDeployer * list NodeDeployer) :
  (type = "ec2" /\ k = Ec2NodeDeployment)
  \/ (type = "rds" /\ k = RdsNodeDeployment) ->
  _active_gen (env s) = Some active ->
  build_deployer d sd type (ec2_deployers, rds_deployers) item s
  = (Returned built, s1) ->
  env s1 = env s
  /\ exists dp,
       built_for d sd k type active item dp
       /\ built = if type =? "ec2"
                  then (ec2_deployers ++ [dp], rds_deployers)
                  else (ec2_deployers, rds_deployers ++ [dp]).
Proof.
  intros Htype Hactive. destruct item as [name node_conf].
  unfold build_deployer, built_for. cbn [fst snd].
  destruct sd as [seed|];
    destruct (conf_seed node_conf) as [seed_conf|] eqn:Hseed;
    try (destruct (unique_id seed_conf) as [seed_name|] eqn:Hid);
    try (destruct (conf_seed_node node_conf) as [seed_node|] eqn:Hnode);
    destruct Htype as [[-> ->]|[-> ->]];
    unfold bind, dict_item, ret, raise, logger, emit, read_env;
    cbn [world env stdin trace String.eqb Ascii.eqb Bool.eqb fst snd];
    rewrite ?Hactive;
    cbn [world env stdin trace String.eqb Ascii.eqb Bool.eqb fst snd];
    intros Hrun; inversion Hrun; subst; clear Hrun;
    (split; [reflexivity|]);
    (eexists; split; [|reflexivity]);
    cbn;
    repeat match goal with
      | |- _ /\ _ => split
      | |- exists _, _ => eexists
      end;
    solve [reflexivity | eassumption].
Qed.

Lemma build_section_inv (d : Deployment) (sd : option Deployment)
  (type : string) (k : Klass) (active : bool) (node_confs : NodeConfs) :
  (type = "ec2" /\ k = Ec2NodeDeployment)
  \/ (type = "rds" /\ k = RdsNodeDeployment) ->
  forall (ec2_deployers rds_deployers : list NodeDeployer) (s s1 : Sys N W)
    (built : list NodeDeployer * list NodeDeployer),
    _active_gen (env s) = Some active ->
    for_fold node_confs (ec2_deployers, rds_deployers)
      (build_deployer d sd type) s
    = (Returned built, s1) ->
    env s1 = env s
    /\ exists dps,
         Forall2 (built_for d sd k type active) node_confs dps
         /\ built = if type =? "ec2"
                    then (ec2_deployers ++ dps, rds_deployers)
                    else (ec2_deployers, rds_deployers ++ dps).
Proof.
  intros Htype.
  induction node_confs as [|item node_confs IH];
    intros ec2_deployers rds_deployers s s1 built Hactive Hrun.
  - cbn in Hrun. unfold ret in Hrun. inversion Hrun; subst.
    split; [reflexivity|]. exists []. split; [constructor|].
    rewrite !app_nil_r. now destruct (type =? "ec2").
  - cbn [for_fold] in Hrun. unfold bind at 1 in Hrun.
    destruct (build_deployer d sd type (ec2_deployers, rds_deployers) item s)
      as [[step| | | |] s0] eqn:Hstep; try discriminate.
    apply (build_deployer_inv _ _ _ _ _ _ _ _ _ _ _ Htype Hactive) in Hstep
      as (Henv & dp & Hdp & ->).
    assert (Htype' : (type =? "ec2") = true \/ (type =? "ec2") = false)
      by (destruct (type =? "ec2"); auto).
    destruct Htype' as [Hec2|Hec2]; rewrite Hec2 in *;
      apply IH in Hrun as (Henv' & dps & Hdps & ->);
      try (now rewrite Henv);
      (split; [congruence|]); exists (dp :: dps);
      (split; [now constructor|]); rewrite <- app_assoc; reflexivity.
Qed.

Lemma build_deployers_inv (environment_config : EnvironmentConfig)
  (d : Deployment) (sd : option Deployment) (active : bool)
  (ec2_deployers rds_deployers : list NodeDeployer) (s s1 : Sys N W) :
  _active_gen (env s) = Some active ->
  build_deployers environment_config d sd s
  = (Returned (ec2_deployers, rds_deployers), s1) ->
  Forall2 (built_for d sd Ec2NodeDeployment "ec2" active)
    (get_or_empty (rds environment_config)) ec2_deployers
  /\ Forall2 (built_for d sd RdsNodeDeployment "rds" active)
       (get_or_empty (ec2 environment_config)) rds_deployers.
Proof.
  intros Hactive. unfold build_deployers, bind at 1, logger, emit.
  cbn [for_fold]. unfold bind at 1.
  match goal with
  | |- context [for_fold ?confs ?acc ?body ?s0] =>
      destruct (for_fold confs acc body s0) as [[first| | | |] s2] eqn:Hfirst
  end; try discriminate.
  apply (build_section_inv d sd "rds" RdsNodeDeployment active)
    in Hfirst as (Henv & rdss & Hrdss & ->);
    [|right; now split|exact Hactive].
  cbn [String.eqb Ascii.eqb Bool.eqb]. unfold bind at 1.
  match goal with
  | |- context [for_fold ?confs ?acc ?body ?s0] =>
      destruct (for_fold confs acc body s0) as [[second| | | |] s3] eqn:Hsecond
  end; try discriminate.
  apply (build_section_inv d sd "ec2" Ec2NodeDeployment active)
    in Hsecond as (Henv' & ec2s & Hec2s & ->);
    [|left; now split|now rewrite Henv].
  cbn [String.eqb Ascii.eqb Bool.eqb]. unfold ret.
  intros Hrun. inversion Hrun; subst. now split.
Qed.

Lemma gather_state_inv (configuration_manager : ConfigurationManager)
  (environment_name : string) (s s1 : Sys N W)
  (gathered : EnvironmentConfig * Deployment) :
  gather_deployment_state configuration_manager environment_name s
  = (Returned gathered, s1) ->
  env s1 = env s
  /\ gathered
     = (get_environment_config configuration_manager environment_name,
        make_deployment environment_name
          (get_environment_config configuration_manager environment_name)).
Proof.
  unfold gather_deployment_state, call_verify_deployment_state, bind,
    logger, emit, ret, raise.
  cbn [world env stdin trace].
  destruct (verify_deployment_state _ _ (world s)) as [[e|] w1];
    cbn [world env stdin trace]; intros Hrun; inversion Hrun; now subst.
Qed.

Lemma gather_seed_state_inv (configuration_manager : ConfigurationManager)
  (environment_name : string) (s s1 : Sys N W) (sd : option Deployment) :
  gather_seed_deployment_state configuration_manager environment_name s
  = (Returned sd, s1) ->
  env s1 = env s
  /\ sd = seed_deployment_of configuration_manager environment_name.
Proof.
  unfold gather_seed_deployment_state, seed_deployment_of,
    call_verify_deployment_state, bind, logger, emit, ret, raise.
  cbn [world env stdin trace].
  destruct (get_seed_environment_name configuration_manager environment_name)
    as [name|]; [destruct (negb (name =? ""))|];
    cbn [world env stdin trace];
    try destruct (verify_deployment_state _ _ (world s)) as [[e|] w1];
    cbn [world env stdin trace]; intros Hrun; inversion Hrun; now subst.
Qed.

(** X18.  Whenever the deployer-building phase of [up] runs to its end, it
    has built one deployer per configured node, in the order of the
    configuration: an [Ec2NodeDeployment] per node of the 'rds' section
    and an [RdsNodeDeployment] per node of the 'ec2' section.  Each is
    marked active whatever [generation] was asked for, and names the seed
    node and the seed verification its node's configuration asks for when
    the environment has a seed environment, none otherwise. *)
Theorem up_builds_a_deployer_per_configured_node (hooks : ContribHooks)
  (environment_name : string) (configuration_manager : ConfigurationManager)
  (ec2_deployers rds_deployers : list NodeDeployer) (s s1 : Sys N W) :
  let config :=
    get_environment_config configuration_manager environment_name in
  let d := make_deployment environment_name config in
  let sd := seed_deployment_of configuration_manager environment_name in
  up_build hooks environment_name configuration_manager s
  = (Returned (ec2_deployers, rds_deployers), s1) ->
  Forall2 (built_for d sd Ec2NodeDeployment "ec2" true)
    (get_or_empty (rds config)) ec2_deployers
  /\ Forall2 (built_for d sd RdsNodeDeployment "rds" true)
       (get_or_empty (ec2 config)) rds_deployers.
Proof.
  intros config d sd.
  unfold up_build, bind at 1, update_env.
  unfold bind at 1, pre_deploy_validation. cbn [dict_get_flag].
  unfold bind at 1, ret. unfold bind at 1.
  match goal with
  | |- context [gather_deployment_state ?cm ?name ?s0] =>
      destruct (gather_deployment_state cm name s0)
        as [[gathered| | | |] s2] eqn:Hgather
  end; try discriminate.
  apply gather_state_inv in Hgather as (Henv & ->).
  unfold bind at 1.
  destruct (gather_seed_deployment_state configuration_manager
              environment_name s2) as [[seed| | | |] s3] eqn:Hseed;
    try discriminate.
  apply gather_seed_state_inv in Hseed as (Henv' & ->).
  apply build_deployers_inv. rewrite Henv', Henv. reflexivity.
Qed.

(** *** [repair] *)

(** X19.  When [env] lacks one of the keys '_deployment_name',
    '_deployment_confs' and '_active_gen', [repair] exits with status 1
    and has done nothing. *)
Theorem repair_exits_without_required_keys (force : string) (s : Sys N W) :
  _deployment_name (env s) = None
  \/ _deployment_confs (env s) = None
  \/ _active_gen (env s) = None ->
  repair force s = (Exited 1, s).
Proof.
  intros Hmissing.
  unfold repair, require, bind, read_env, exit, ret.
  cbn [world env stdin trace].
  destruct (_deployment_name (env s)) as [name|];
    [|reflexivity].
  cbn [world env stdin trace].
  destruct (_deployment_confs (env s)) as [confs|]; [|reflexivity].
  cbn [world env stdin trace].
  destruct (confs_empty confs); [reflexivity|].
  cbn [world env stdin trace].
  destruct (_active_gen (env s)) as [active|]; [|reflexivity].
  destruct Hmissing as [Hname|[Hconfs|Hactive]]; discriminate.
Qed.

(** X25.  An empty dict under '_deployment_confs' counts as a missing
    key: [repair] exits with status 1 and has done nothing, whatever
    [env._active_gen] is; it reaches neither its [assert] nor the
    subscripts of the configurations. *)
Theorem repair_exits_on_empty_confs (force name : string)
  (confs : EnvironmentConfig) (s : Sys N W) :
  _deployment_name (env s) = Some name ->
  _deployment_confs (env s) = Some confs ->
  confs_empty confs = true ->
  repair force s = (Exited 1, s).
Proof.
  intros Hname Hconfs Hempty.
  unfold repair, require, bind, read_env, exit, ret.
  cbn [world env stdin trace]. rewrite Hname.
  cbn [world env stdin trace]. rewrite Hconfs.
  cbn [world env stdin trace]. rewrite Hempty.
  reflexivity.
Qed.

(** X20.  When the deployment configurations are not empty and
    [env._active_gen] is false, [repair] raises [AssertionError] and has
    done nothing: the sections are not read and the deployment is not
    asked anything. *)
Theorem repair_refuses_inactive_generation (force name : string)
  (confs : EnvironmentConfig) (s : Sys N W) :
  _deployment_name (env s) = Some name ->
  _deployment_confs (env s) = Some confs ->
  confs_empty confs = false ->
  _active_gen (env s) = Some false ->
  repair force s = (Raised AssertionError, s).
Proof.
  intros Hname Hconfs Hsome Hactive.
  unfold repair, require, bind, read_env, assert, raise, ret.
  cbn [world env stdin trace]. rewrite Hname.
  cbn [world env stdin trace]. rewrite Hconfs.
  cbn [world env stdin trace]. rewrite Hsome.
  cbn [world env stdin trace]. rewrite Hactive.
  reflexivity.
Qed.

(** X21.  [repair] reads the three sections of the deployment
    configurations by subscript: when the configurations are not empty
    and one of 'ec2', 'rds' and 'elb' is missing, it raises [KeyError]
    with the first missing key, before the deployment state is
    verified. *)
Theorem repair_needs_every_section (force name key : string)
  (confs : EnvironmentConfig) (s : Sys N W) :
  _deployment_name (env s) = Some name ->
  _deployment_confs (env s) = Some confs ->
  confs_empty confs = false ->
  _active_gen (env s) = Some true ->
  first_missing_section confs = Some key ->
  repair force s = (Raised (KeyError key), s).
Proof.
  intros Hname Hconfs Hsome Hactive Hmissing.
  unfold repair, require, bind, read_env, assert, dict_item, raise, ret.
  cbn [world env stdin trace]. rewrite Hname.
  cbn [world env stdin trace]. rewrite Hconfs.
  cbn [world env stdin trace]. rewrite Hsome.
  cbn [world env stdin trace]. rewrite Hactive.
  cbn [world env stdin trace].
  unfold first_missing_section in Hmissing.
  destruct (ec2 confs), (rds confs), (elb confs);
    inversion Hmissing; subst; reflexivity.
Qed.

(** X22.  When the deployment state does not verify, [repair] raises what
    [verify_deployment_state] raised, and [repair_active_generation] is
    not called. *)
Theorem repair_stops_when_state_does_not_verify (force name : string)
  (confs : EnvironmentConfig) (ec2_confs rds_confs elb_confs : NodeConfs)
  (failure : Exn) (s : Sys N W) :
  let d :=
    {| deployment_name := name;
       deployment_ec2 := ec2_confs;
       deployment_rds := rds_confs;
       deployment_elb := elb_confs |} in
  _deployment_name (env s) = Some name ->
  _deployment_confs (env s) = Some confs ->
  _active_gen (env s) = Some true ->
  ec2 confs = Some ec2_confs ->
  rds confs = Some rds_confs ->
  elb confs = Some elb_confs ->
  fst (verify_deployment_state d None (world s)) = Some failure ->
  repair force s
  = (Raised failure,
     mkSys (snd (verify_deployment_state d None (world s))) (env s)
       (stdin s) (trace s ++ [VerifyDeploymentState d None])).
Proof.
  intros d Hname Hconfs Hactive Hec2 Hrds Helb Hfails.
  assert (Hsome : confs_empty confs = false)
    by (unfold confs_empty; now rewrite Hec2).
  unfold repair, require, bind, read_env, assert, dict_item,
    call_verify_deployment_state, bind, emit, raise, ret.
  cbn [world env stdin trace]. rewrite Hname.
  cbn [world env stdin trace]. rewrite Hconfs.
  cbn [world env stdin trace]. rewrite Hsome.
  cbn [world env stdin trace]. rewrite Hactive.
  cbn [world env stdin trace]. rewrite Hec2, Hrds, Helb.
  cbn [world env stdin trace]. fold d.
  destruct (verify_deployment_state d None (world s)) as [result w1].
  cbn [fst snd] in *. subst result. reflexivity.
Qed.

(** X23.  However [repair] ends, it has shown no prompt and read no
    input, it has left [env] as it was, and it has called
    [repair_active_generation] at most once and only after a call of
    [verify_deployment_state]. *)
Theorem repair_is_unattended (force : string) (s : Sys N W) :
  let ran := repair force s in
  env (snd ran) = env s
  /\ stdin (snd ran) = stdin s
  /\ exists evs,
       trace (snd ran) = trace s ++ evs
       /\ count_events is_prompt evs = 0
       /\ (evs = []
           \/ (exists d, evs = [VerifyDeploymentState d None])
           \/ (exists d force_operational report,
                  evs = [VerifyDeploymentState d None;
                         RepairActiveGeneration d force_operational None;
                         Log INFO (fst report) (snd report)])).
Proof.
  intros ran. subst ran.
  unfold repair, require, bind, read_env, assert, dict_item,
    call_verify_deployment_state, call_repair_active_generation, logger,
    bind, emit, raise, exit, ret.
  cbn [world env stdin trace].
  destruct (_deployment_name (env s)) as [name|];
    cbn [world env stdin trace fst snd];
    [|repeat split; exists []; rewrite app_nil_r; auto].
  destruct (_deployment_confs (env s)) as [confs|];
    cbn [world env stdin trace fst snd];
    [|repeat split; exists []; rewrite app_nil_r; auto].
  destruct (confs_empty confs);
    cbn [world env stdin trace fst snd];
    [repeat split; exists []; rewrite app_nil_r; auto|].
  destruct (_active_gen (env s)) as [[|]|];
    cbn [world env stdin trace fst snd];
    try (repeat split; exists []; rewrite app_nil_r; now auto).
  destruct (ec2 confs) as [ec2_confs|];
    cbn [world env stdin trace fst snd];
    [|repeat split; exists []; rewrite app_nil_r; auto].
  destruct (rds confs) as [rds_confs|];
    cbn [world env stdin trace fst snd];
    [|repeat split; exists []; rewrite app_nil_r; auto].
  destruct (elb confs) as [elb_confs|];
    cbn [world env stdin trace fst snd];
    [|repeat split; exists []; rewrite app_nil_r; auto].
  match goal with
  | |- context [verify_deployment_state ?d None (world s)] =>
      destruct (verify_deployment_state d None (world s)) as [[e|] w1];
      cbn [world env stdin trace fst snd];
      [ repeat split; exists [VerifyDeploymentState d None];
        repeat split; right; left; now exists d
      | destruct (repair_active_generation d (force =? "y") None w1)
          as [activated w2];
        cbn [world env stdin trace fst snd];
        destruct (0 <? List.length activated)%nat;
        cbn [world env stdin trace fst snd];
        repeat split;
        eexists; (split; [rewrite <- !app_assoc; reflexivity|]);
        (split; [reflexivity|]);
        right; right;
        exists d, (force =? "y"); eexists (_, _); reflexivity ]
  end.
Qed.

End MoreProperties.

(** ** The further properties at work *)

Module MoreRuns.

Import Toy.

(** The scheduler reading two nodes of [fleet]. *)
Lemma order_reads_each_deployer_once_witness :
  Forall (node_exists fleet) [deployer_of "c"; deployer_of "a"]
  /\ snd (_order_ec2_deployers_by_priority
            [deployer_of "c"; deployer_of "a"] (start fleet no_env []))
     = traced (start fleet no_env [])
         [GetNode (deployer_of "c"); IsOperational 3; IsHealthy 3;
          GetNode (deployer_of "a"); IsOperational 1; IsHealthy 1].
Proof.
  assert (Hall : Forall (node_exists (world (start fleet no_env [])))
                   [deployer_of "c"; deployer_of "a"])
    by (repeat constructor; discriminate).
  split; [exact Hall|].
  exact (order_reads_each_deployer_once
           [deployer_of "c"; deployer_of "a"] (start fleet no_env []) Hall).
Defined.

(** The scheduler on a batch whose second deployer has no node. *)
Lemma order_raises_at_first_missing_node_witness :
  Forall (node_exists fleet) [deployer_of "a"]
  /\ get_node (deployer_of "ghost") fleet = None
  /\ _order_ec2_deployers_by_priority
       ([deployer_of "a"] ++ deployer_of "ghost" :: [deployer_of "d"])
       (start fleet no_env [])
     = (Raised
          (AttributeError
             "'NoneType' object has no attribute 'is_operational'"),
        traced (start fleet no_env [])
          [GetNode (deployer_of "a"); IsOperational 1; IsHealthy 1;
           GetNode (deployer_of "ghost")]).
Proof.
  assert (Hall : Forall (node_exists (world (start fleet no_env [])))
                   [deployer_of "a"])
    by (repeat constructor; discriminate).
  assert (Hnode : get_node (deployer_of "ghost")
                    (world (start fleet no_env [])) = None)
    by reflexivity.
  split; [exact Hall|]. split; [exact Hnode|].
  exact (order_raises_at_first_missing_node [deployer_of "a"]
           [deployer_of "d"] (deployer_of "ghost") (start fleet no_env [])
           Hall Hnode).
Defined.

(** The scheduler on the four nodes of [fleet], given in reverse. *)
Lemma order_puts_inoperative_before_operational_witness :
  Forall (node_exists fleet)
    [deployer_of "d"; deployer_of "c"; deployer_of "b"; deployer_of "a"]
  /\ exists inoperative unhealthy healthy,
       fst (_order_ec2_deployers_by_priority
              [deployer_of "d"; deployer_of "c"; deployer_of "b";
               deployer_of "a"]
              (start fleet no_env []))
       = Returned (inoperative ++ unhealthy ++ healthy)
       /\ forallb (operational_in fleet false) inoperative = true
       /\ forallb (in_bucket fleet true false) unhealthy = true
       /\ forallb (in_bucket fleet true true) healthy = true.
Proof.
  assert (Hall : Forall (node_exists (world (start fleet no_env [])))
                   [deployer_of "d"; deployer_of "c"; deployer_of "b";
                    deployer_of "a"])
    by (repeat constructor; discriminate).
  split; [exact Hall|].
  exact (order_puts_inoperative_before_operational
           [deployer_of "d"; deployer_of "c"; deployer_of "b";
            deployer_of "a"]
           (start fleet no_env []) Hall).
Defined.

(** The scheduler run twice on the four nodes of [fleet]. *)
Lemma order_of_ordered_batch_is_unchanged_witness :
  Forall (node_exists fleet)
    [deployer_of "d"; deployer_of "c"; deployer_of "b"; deployer_of "a"]
  /\ exists out s1 s2,
       _order_ec2_deployers_by_priority
         [deployer_of "d"; deployer_of "c"; deployer_of "b"; deployer_of "a"]
         (start fleet no_env [])
       = (Returned out, s1)
       /\ _order_ec2_deployers_by_priority out s1 = (Returned out, s2).
Proof.
  assert (Hall : Forall (node_exists (world (start fleet no_env [])))
                   [deployer_of "d"; deployer_of "c"; deployer_of "b";
                    deployer_of "a"])
    by (repeat constructor; discriminate).
  split; [exact Hall|].
  exact (order_of_ordered_batch_is_unchanged
           [deployer_of "d"; deployer_of "c"; deployer_of "b";
            deployer_of "a"]
           (start fleet no_env []) Hall).
Defined.

(** Node 4 of [fleet] can be rotated out: node 3 stays in service. *)
Lemma seamless_with_redundancy_only_asks_witness :
  has_required_redundancy the_deployment 4 fleet = true
  /\ seamless_modification 20 (Some 4) the_deployment true false
       (call_run (deployer_of "d")) (start fleet no_env [])
     = seamless_modification 20 (Some 4) the_deployment false false
         (call_run (deployer_of "d"))
         (traced (start fleet no_env [])
            [HasRequiredRedundancy the_deployment 4]).
Proof.
  assert (Hred : has_required_redundancy the_deployment 4
                   (world (start fleet no_env [])) = true)
    by reflexivity.
  split; [exact Hred|].
  exact (seamless_with_redundancy_only_asks 20 4 the_deployment false
           (call_run (deployer_of "d")) (start fleet no_env []) Hred).
Defined.

(** The only node of [lone_node], and an operator who answers "y". *)
Lemma seamless_asks_operator_without_redundancy_witness :
  has_required_redundancy the_deployment 3 lone_node = false
  /\ is_attended no_env = true
  /\ seamless_modification 20 (Some 3) the_deployment true false
       (call_run (deployer_of "c")) (mkSys lone_node no_env ["y"] [])
     = (Exited 1,
        mkSys lone_node no_env []
          [HasRequiredRedundancy the_deployment 3;
           Prompted (redundancy_prompt_text 3);
           Log CRITICAL
             "Node node-3 doesn't have required redundancy. Aborting" []]).
Proof.
  assert (Hred : has_required_redundancy the_deployment 3 lone_node = false)
    by reflexivity.
  assert (Hattended : is_attended no_env = true) by reflexivity.
  split; [exact Hred|]. split; [exact Hattended|].
  exact (seamless_asks_operator_without_redundancy 20 3 the_deployment false
           (call_run (deployer_of "c")) lone_node no_env "y" [] []
           Hred Hattended).
Defined.

(** Node 1 of [fleet] is out of service. *)
Lemma seamless_leaves_inoperative_node_alone_witness :
  is_operational 1 fleet = false
  /\ seamless_modification 20 (Some 1) the_deployment false false
       (call_run (deployer_of "a")) (start fleet no_env [])
     = (Returned tt,
        mkSys fleet no_env [] [IsOperational 1; Run (deployer_of "a")]).
Proof.
  assert (Hdown : is_operational 1 (world (start fleet no_env [])) = false)
    by reflexivity.
  split; [exact Hdown|].
  exact (seamless_leaves_inoperative_node_alone 20 1 the_deployment
           (call_run (deployer_of "a")) (start fleet no_env []) Hdown).
Defined.

(** A block that raises, on node 4 of [fleet]: the node is left out of
    service. *)
Lemma seamless_does_not_restore_when_block_fails_witness :
  is_returned
    (fst (raise (A:=unit) (ExternalError "deploy failed")
            (entered 4 (start fleet no_env [])))) = false
  /\ seamless_modification 20 (Some 4) the_deployment false true
       (raise (ExternalError "deploy failed")) (start fleet no_env [])
     = (Raised (ExternalError "deploy failed"),
        mkSys (take_out_of_service 4 fleet) no_env [] (rotation_events 4)).
Proof.
  assert (Hfails :
    is_returned
      (fst (raise (A:=unit) (ExternalError "deploy failed")
              (entered 4 (start fleet no_env [])))) = false)
    by reflexivity.
  split; [exact Hfails|].
  exact (seamless_does_not_restore_when_block_fails 20 4 the_deployment true
           (raise (ExternalError "deploy failed")) (start fleet no_env [])
           Hfails).
Defined.

(** Node 4 of [fleet] rotated out, configured and rotated back in. *)
Lemma seamless_restores_operation_after_block_witness :
  is_operational 4 fleet || false = true
  /\ call_run (deployer_of "d") (entered 4 (start fleet no_env []))
     = (Returned tt,
        mkSys (take_out_of_service 4 fleet) no_env []
          (rotation_events 4 ++ [Run (deployer_of "d")]))
  /\ is_operational 4
       (snd (make_operational 4 (take_out_of_service 4 fleet))) = true
  /\ seamless_modification 1 (Some 4) the_deployment false false
       (call_run (deployer_of "d")) (start fleet no_env [])
     = (Returned tt,
        mkSys (put_in_service [4] (take_out_of_service 4 fleet)) no_env []
          (rotation_events 4
           ++ [Run (deployer_of "d");
               Log INFO "Restoring operation: %s" ["node-4"];
               MakeOperational 4;
               IsOperational 4;
               Log INFO "Node %s now operational" ["node-4"]])).
Proof.
  assert (Hrestore :
    is_operational 4 (world (start fleet no_env [])) || false = true)
    by reflexivity.
  assert (Hbody :
    call_run (deployer_of "d") (entered 4 (start fleet no_env []))
    = (Returned tt,
       mkSys (take_out_of_service 4 fleet) no_env []
         (rotation_events 4 ++ [Run (deployer_of "d")])))
    by reflexivity.
  assert (Hup :
    is_operational 4
      (snd (make_operational 4
              (world
                 (mkSys (take_out_of_service 4 fleet) no_env []
                    (rotation_events 4 ++ [Run (deployer_of "d")])))))
    = true)
    by reflexivity.
  split; [exact Hrestore|]. split; [exact Hbody|]. split; [exact Hup|].
  exact (seamless_restores_operation_after_block 0 4 the_deployment false
           (call_run (deployer_of "d")) (start fleet no_env [])
           (mkSys (take_out_of_service 4 fleet) no_env []
              (rotation_events 4 ++ [Run (deployer_of "d")]))
           Hrestore Hbody Hup).
Defined.

(** Generation mode on [idle_pair]: the repair brings both nodes into
    service. *)
Lemma seamless_repairs_generation_after_block_witness :
  ret tt (start idle_pair no_env []) = (Returned tt, start idle_pair no_env [])
  /\ active_is_fully_operational the_deployment
       (snd (repair_active_generation the_deployment true (Some false)
               idle_pair)) = true
  /\ seamless_modification 1 None the_deployment true true (ret tt)
       (start idle_pair no_env [])
     = (Returned tt,
        mkSys (put_in_service [1; 2] idle_pair) no_env []
          [Log INFO "Restoring operation: %s" ["None"];
           RepairActiveGeneration the_deployment true (Some false);
           ActiveIsFullyOperational the_deployment;
           Log INFO "Active generation is fully operational" []]).
Proof.
  assert (Hbody :
    ret tt (start idle_pair no_env [])
    = (Returned tt, start idle_pair no_env []))
    by reflexivity.
  assert (Hup :
    active_is_fully_operational the_deployment
      (snd (repair_active_generation the_deployment true (Some false)
              (world (start idle_pair no_env [])))) = true)
    by reflexivity.
  split; [exact Hbody|]. split; [exact Hup|].
  exact (seamless_repairs_generation_after_block 0 the_deployment true
           (ret tt) (start idle_pair no_env []) (start idle_pair no_env [])
           Hbody Hup).
Defined.

(** Two nodes created in [empty_cloud]. *)
Lemma provision_creates_every_node_in_order_witness :
  Forall (fun dp => seed_verification dp = false)
    [deployer_of "a"; deployer_of "x"]
  /\ provision_nodes [deployer_of "a"; deployer_of "x"]
       (start empty_cloud no_env [])
     = (Returned tt,
        mkSys (mkWorld [("x", 2); ("a", 1)] [] [] true) no_env []
          [EnsureNodeCreated (deployer_of "a");
           EnsureNodeCreated (deployer_of "x")]).
Proof.
  assert (Hall : Forall (fun dp => seed_verification dp = false)
                   [deployer_of "a"; deployer_of "x"])
    by (repeat constructor).
  split; [exact Hall|].
  exact (provision_creates_every_node_in_order
           [deployer_of "a"; deployer_of "x"] (start empty_cloud no_env [])
           Hall).
Defined.

(** [up] on [broken_cloud]. *)
Lemma up_stops_when_state_does_not_verify_witness :
  fst (verify_deployment_state
         (make_deployment "prod" (get_environment_config seedless_manager "prod"))
         (Some false) broken_cloud)
  = Some (ExternalError "inconsistent deployment state")
  /\ up 20 no_hooks "prod" seedless_manager tt ACTIVE
       (start broken_cloud no_env [])
     = (Raised (ExternalError "inconsistent deployment state"),
        mkSys broken_cloud (set_active_gen true no_env) []
          [Log INFO "Gathering deployment state" [];
           VerifyDeploymentState
             (make_deployment "prod"
                (get_environment_config seedless_manager "prod"))
             (Some false)]).
Proof.
  assert (Hfails :
    fst (verify_deployment_state
           (make_deployment "prod"
              (get_environment_config seedless_manager "prod"))
           (Some false) (world (start broken_cloud no_env [])))
    = Some (ExternalError "inconsistent deployment state"))
    by reflexivity.
  split; [exact Hfails|].
  exact (up_stops_when_state_does_not_verify 20 no_hooks "prod"
           seedless_manager tt ACTIVE
           (ExternalError "inconsistent deployment state")
           (start broken_cloud no_env []) Hfails).
Defined.

(** [up] for the environment "prod" of [seedless_manager], which has one
    EC2 node. *)
Lemma up_of_seedless_environment_witness :
  seed_deployment_of seedless_manager "prod" = None
  /\ fst (verify_deployment_state
            (make_deployment "prod"
               (get_environment_config seedless_manager "prod"))
            (Some false) fleet) = None
  /\ up 20 no_hooks "prod" seedless_manager tt PENDING
       (start fleet no_env [])
     = (Raised AssertionError,
        mkSys fleet (set_active_gen true no_env) []
          [Log INFO "Gathering deployment state" [];
           VerifyDeploymentState
             (make_deployment "prod"
                (get_environment_config seedless_manager "prod"))
             (Some false);
           Log INFO "Gathering seed deployment state" [];
           Log INFO "Building Node deployers" [];
           Log INFO "No seed node configured" []]).
Proof.
  assert (Hseedless : seed_deployment_of seedless_manager "prod" = None)
    by reflexivity.
  assert (Hverifies :
    fst (verify_deployment_state
           (make_deployment "prod"
              (get_environment_config seedless_manager "prod"))
           (Some false) (world (start fleet no_env []))) = None)
    by reflexivity.
  split; [exact Hseedless|]. split; [exact Hverifies|].
  exact (up_of_seedless_environment 20 no_hooks "prod" seedless_manager tt
           PENDING (start fleet no_env []) Hseedless Hverifies).
Defined.

(** The deployers [up] builds for the environment "prod" of
    [fully_seeded_manager]: the seeded node "web0" of the 'ec2' section
    gets an [RdsNodeDeployment] that asks for seed verification, the node
    "db0" of the 'rds' section an [Ec2NodeDeployment]. *)
Lemma up_builds_a_deployer_per_configured_node_witness :
  let config := get_environment_config fully_seeded_manager "prod" in
  let d := make_deployment "prod" config in
  let sd := Some (make_deployment "seed" no_nodes) in
  let ec2_deployers :=
    [{| klass := Ec2NodeDeployment;
        deployment := d;
        seed_deployment := sd;
        is_active := true;
        aws_type := "ec2";
        node_name := "db0";
        seed_node_name := None;
        seed_verification := false;
        brain_wrinkles := [];
        conf := plain_conf |}] in
  let rds_deployers :=
    [{| klass := RdsNodeDeployment;
        deployment := d;
        seed_deployment := sd;
        is_active := true;
        aws_type := "rds";
        node_name := "web0";
        seed_node_name := Some "seed-web0";
        seed_verification := true;
        brain_wrinkles := [];
        conf := seeded_conf |}] in
  let s := start fleet no_env [] in
  up_build no_hooks "prod" fully_seeded_manager s
  = (Returned (ec2_deployers, rds_deployers),
     snd (up_build no_hooks "prod" fully_seeded_manager s))
  /\ Forall2 (built_for d sd Ec2NodeDeployment "ec2" true)
       [("db0", plain_conf)] ec2_deployers
  /\ Forall2 (built_for d sd RdsNodeDeployment "rds" true)
       [("web0", seeded_conf)] rds_deployers.
Proof.
  intros config d sd ec2_deployers rds_deployers s.
  assert (Hbuild :
    up_build no_hooks "prod" fully_seeded_manager s
    = (Returned (ec2_deployers, rds_deployers),
       snd (up_build no_hooks "prod" fully_seeded_manager s)))
    by reflexivity.
  split; [exact Hbuild|].
  exact (up_builds_a_deployer_per_configured_node no_hooks "prod"
           fully_seeded_manager ec2_deployers rds_deployers s
           (snd (up_build no_hooks "prod" fully_seeded_manager s)) Hbuild).
Defined.

(** [repair] with an empty [env]. *)
Lemma repair_exits_without_required_keys_witness :
  (_deployment_name no_env = None
   \/ _deployment_confs no_env = None
   \/ _active_gen no_env = None)
  /\ repair "y" (start fleet no_env [])
     = (Exited 1, start fleet no_env []).
Proof.
  assert (Hmissing :
    _deployment_name (env (start fleet no_env [])) = None
    \/ _deployment_confs (env (start fleet no_env [])) = None
    \/ _active_gen (env (start fleet no_env [])) = None)
    by (left; reflexivity).
  split; [exact Hmissing|].
  exact (repair_exits_without_required_keys "y" (start fleet no_env [])
           Hmissing).
Defined.

(** [repair] for a generation that is not the active one. *)
Lemma repair_refuses_inactive_generation_witness :
  _deployment_name inactive_env = Some "prod"
  /\ _deployment_confs inactive_env
     = Some {| ec2 := Some []; rds := Some []; elb := Some [] |}
  /\ confs_empty {| ec2 := Some []; rds := Some []; elb := Some [] |} = false
  /\ _active_gen inactive_env = Some false
  /\ repair "y" (start idle_pair inactive_env [])
     = (Raised AssertionError, start idle_pair inactive_env []).
Proof.
  assert (Hsome :
    confs_empty {| ec2 := Some []; rds := Some []; elb := Some [] |} = false)
    by reflexivity.
  assert (Hname :
    _deployment_name (env (start idle_pair inactive_env [])) = Some "prod")
    by reflexivity.
  assert (Hconfs :
    _deployment_confs (env (start idle_pair inactive_env []))
    = Some {| ec2 := Some []; rds := Some []; elb := Some [] |})
    by reflexivity.
  assert (Hactive :
    _active_gen (env (start idle_pair inactive_env [])) = Some false)
    by reflexivity.
  split; [exact Hname|]. split; [exact Hconfs|]. split; [exact Hsome|].
  split; [exact Hactive|].
  exact (repair_refuses_inactive_generation "y" "prod" _
           (start idle_pair inactive_env []) Hname Hconfs Hsome Hactive).
Defined.

(** [repair] with deployment configurations that have no 'rds' section. *)
Lemma repair_needs_every_section_witness :
  _deployment_name no_rds_env = Some "prod"
  /\ _deployment_confs no_rds_env
     = Some {| ec2 := Some []; rds := None; elb := Some [] |}
  /\ confs_empty {| ec2 := Some []; rds := None; elb := Some [] |} = false
  /\ _active_gen no_rds_env = Some true
  /\ first_missing_section {| ec2 := Some []; rds := None; elb := Some [] |}
     = Some "rds"
  /\ repair "n" (start idle_pair no_rds_env [])
     = (Raised (KeyError "rds"), start idle_pair no_rds_env []).
Proof.
  assert (Hsome :
    confs_empty {| ec2 := Some []; rds := None; elb := Some [] |} = false)
    by reflexivity.
  assert (Hname :
    _deployment_name (env (start idle_pair no_rds_env [])) = Some "prod")
    by reflexivity.
  assert (Hconfs :
    _deployment_confs (env (start idle_pair no_rds_env []))
    = Some {| ec2 := Some []; rds := None; elb := Some [] |})
    by reflexivity.
  assert (Hactive :
    _active_gen (env (start idle_pair no_rds_env [])) = Some true)
    by reflexivity.
  assert (Hmissing :
    first_missing_section {| ec2 := Some []; rds := None; elb := Some [] |}
    = Some "rds")
    by reflexivity.
  split; [exact Hname|]. split; [exact Hconfs|]. split; [exact Hsome|].
  split; [exact Hactive|]. split; [exact Hmissing|].
  exact (repair_needs_every_section "n" "prod" "rds" _
           (start idle_pair no_rds_env []) Hname Hconfs Hsome Hactive
           Hmissing).
Defined.

(** [repair] with an empty dict of deployment configurations, for a
    generation that is not active: the run is aborted before the
    [assert]. *)
Lemma repair_exits_on_empty_confs_witness :
  _deployment_name no_confs_env = Some "prod"
  /\ _deployment_confs no_confs_env = Some no_nodes
  /\ confs_empty no_nodes = true
  /\ repair "y" (start idle_pair no_confs_env [])
     = (Exited 1, start idle_pair no_confs_env []).
Proof.
  assert (Hname :
    _deployment_name (env (start idle_pair no_confs_env [])) = Some "prod")
    by reflexivity.
  assert (Hconfs :
    _deployment_confs (env (start idle_pair no_confs_env []))
    = Some no_nodes)
    by reflexivity.
  assert (Hempty : confs_empty no_nodes = true) by reflexivity.
  split; [exact Hname|]. split; [exact Hconfs|]. split; [exact Hempty|].
  exact (repair_exits_on_empty_confs "y" "prod" no_nodes
           (start idle_pair no_confs_env []) Hname Hconfs Hempty).
Defined.

(** [repair] on [broken_cloud]. *)
Lemma repair_stops_when_state_does_not_verify_witness :
  let d :=
    {| deployment_name := "prod";
       deployment_ec2 := [];
       deployment_rds := [];
       deployment_elb := [] |} in
  _deployment_name repair_env = Some "prod"
  /\ _deployment_confs repair_env
     = Some {| ec2 := Some []; rds := Some []; elb := Some [] |}
  /\ _active_gen repair_env = Some true
  /\ fst (verify_deployment_state d None broken_cloud)
     = Some (ExternalError "inconsistent deployment state")
  /\ repair "y" (start broken_cloud repair_env [])
     = (Raised (ExternalError "inconsistent deployment state"),
        mkSys broken_cloud repair_env [] [VerifyDeploymentState d None]).
Proof.
  intros d.
  assert (Hname :
    _deployment_name (env (start broken_cloud repair_env [])) = Some "prod")
    by reflexivity.
  assert (Hconfs :
    _deployment_confs (env (start broken_cloud repair_env []))
    = Some {| ec2 := Some []; rds := Some []; elb := Some [] |})
    by reflexivity.
  assert (Hactive :
    _active_gen (env (start broken_cloud repair_env [])) = Some true)
    by reflexivity.
  assert (Hfails :
    fst (verify_deployment_state d None
           (world (start broken_cloud repair_env [])))
    = Some (ExternalError "inconsistent deployment state"))
    by reflexivity.
  split; [exact Hname|]. split; [exact Hconfs|]. split; [exact Hactive|].
  split; [exact Hfails|].
  exact (repair_stops_when_state_does_not_verify "y" "prod"
           {| ec2 := Some []; rds := Some []; elb := Some [] |} [] [] []
           (ExternalError "inconsistent deployment state")
           (start broken_cloud repair_env [])
           Hname Hconfs Hactive eq_refl eq_refl eq_refl Hfails).
Defined.


End MoreRuns.

Module SlowRuns.

Import Slow.

(** A node that needs three calls of [make_operational]: two attempts
    fail, the third brings it into service. *)
Lemma restore_converges_without_operator_witness :
  2 <= auto_retries
  /\ down_for (W:=nat) 7 2 3
  /\ is_operational (W:=nat) 7
       (snd (make_operational 7 (after_attempts (W:=nat) 7 2 3))) = true
  /\ exists evs,
       restore_operation 3 (Some 7) Toy.the_deployment true
         (mkSys (N:=nat) (W:=nat) 3 Toy.no_env [] [])
       = (Returned tt, mkSys (N:=nat) (W:=nat) 0 Toy.no_env [] ([] ++ evs))
       /\ count_events is_make_operational evs = 3
       /\ count_events is_sleep evs = 2
       /\ count_events is_prompt evs = 0.
Proof.
  assert (Hle : 2 <= auto_retries) by (unfold auto_retries; lia).
  assert (Hdown : down_for (W:=nat) 7 2
                    (world (mkSys (N:=nat) (W:=nat) 3 Toy.no_env [] [])))
    by (intros [|[|j]] Hj; [split; reflexivity|split; reflexivity|lia]).
  assert (Hup :
    is_operational (W:=nat) 7
      (snd (make_operational 7
              (after_attempts (W:=nat) 7 2
                 (world (mkSys (N:=nat) (W:=nat) 3 Toy.no_env [] []))))) = true)
    by reflexivity.
  split; [exact Hle|]. split; [exact Hdown|]. split; [exact Hup|].
  exact (restore_converges_without_operator 0 2 7 Toy.the_deployment
           (mkSys (N:=nat) (W:=nat) 3 Toy.no_env [] []) Hle Hdown Hup).
Defined.

End SlowRuns.
